(** * Order-total computation of the cart screen

    A shallow embedding of the helpers and of the state updates of the cart
    screen (the file that defines [toNum], [calcCouponDiscount],
    [calculateShippingCost], [calculateTaxes], [calculateGSTBreakdown],
    [determinePaymentMethod] and the [Cart] component), followed by the
    properties of the order total that are established about them.

    Numbers.  A TypeScript [number] is embedded as [JS.number]: a rational,
    or one of the three special values [PInf], [NInf], [NaN], with the IEEE
    rules for the special values.  The result of an operation on finite
    numbers, and the value of a numeric literal, is the exact result as the
    arithmetic rounds it: the class [JS.Arithmetic].  [JS.Binary64] is the
    arithmetic of the program, IEEE 754 binary64 with rounding to nearest
    even and overflow to the infinities; [JS.Exact] does not round.  Every
    definition is generic in the arithmetic.  A theorem of a section that
    takes an arbitrary arithmetic holds however the results are rounded,
    hence of the program; a theorem of a section that selects [JS.Exact]
    holds of exact arithmetic, and the examples say which arithmetic they
    are computed in.  The sign of zero is not part of the model.

    Strings.  A TypeScript [string] is a [string] of the standard library;
    the only white space known to the parsers is the ASCII one.

    Objects.  An object written [{}] and used as a map inherits the
    properties of [Object.prototype]: to read a key that names one of them
    is to read a value that is not an own property ([Obj.read]).

    Throws.  A call that can throw returns an [Outcome]; the tax calculator
    throws on a cart with an item of which the tax class names an inherited
    property, and so do its callers that have no handler.

    Host.  [eval] and the printing of a number by [toString] are left to
    the engine: they are the two fields of the class [Host], over which
    the definitions and the theorems are generic.

    State.  The component is embedded by explicit state passing: a record
    with one field for each [useState], and for each function of the
    component the state that it leaves, given what the awaited calls come
    to.  An effect is the function from the state of a render to the state
    that it leaves; [reachable] lists the batches of updates that lead from
    one render to the next. *)

From Stdlib Require Import ZArith QArith Qcanon List String Ascii Bool Lia.
From Stdlib Require Import Permutation DecimalString DecimalN NArith Nnat.
From Stdlib Require Import Qround Lqa SpecFloat.
Import ListNotations.

Set Implicit Arguments.

(* ================================================================== *)
(** * JavaScript numbers *)

Module JS.

Inductive number : Type :=
| Fin (q : Qc)
| PInf
| NInf
| NaN.

(** The arithmetic of the engine: how the exact result of an operation on
    finite numbers, or the exact value of a numeric literal, is rounded to
    a number.  The result is a finite number or, when the engine overflows,
    an infinity; [0] is a number of every arithmetic. *)
Class Arithmetic : Type := {
  round : Qc -> number;
  round_zero : round (Q2Qc 0) = Fin (Q2Qc 0)
}.

Definition ofZ (z : Z) : number := Fin (Q2Qc (inject_Z z)).

Definition zero : number := ofZ 0.
Definition one : number := ofZ 1.
Definition two : number := ofZ 2.
Definition hundred : number := ofZ 100.

(** Sign of a finite value, as a [comparison] with zero. *)
Definition sgn (q : Qc) : comparison := (q ?= Q2Qc 0)%Qc.

Definition neg (x : number) : number :=
  match x with
  | Fin q => Fin (- q)%Qc
  | PInf => NInf
  | NInf => PInf
  | NaN => NaN
  end.

Section Rounded.
Context {A : Arithmetic}.

Definition add (x y : number) : number :=
  match x, y with
  | NaN, _ | _, NaN => NaN
  | PInf, NInf | NInf, PInf => NaN
  | PInf, _ | _, PInf => PInf
  | NInf, _ | _, NInf => NInf
  | Fin a, Fin b => round (a + b)%Qc
  end.

Definition sub (x y : number) : number := add x (neg y).

(** An infinity of the sign of [s] times an infinity of sign [pos]. *)
Definition inf_signed (pos : bool) (s : comparison) : number :=
  match s with
  | Eq => NaN
  | Gt => if pos then PInf else NInf
  | Lt => if pos then NInf else PInf
  end.

Definition mul (x y : number) : number :=
  match x, y with
  | NaN, _ | _, NaN => NaN
  | Fin a, Fin b => round (a * b)%Qc
  | PInf, Fin b => inf_signed true (sgn b)
  | NInf, Fin b => inf_signed false (sgn b)
  | Fin a, PInf => inf_signed true (sgn a)
  | Fin a, NInf => inf_signed false (sgn a)
  | PInf, PInf | NInf, NInf => PInf
  | PInf, NInf | NInf, PInf => NInf
  end.

(** Division; a zero divisor counts as [+0]. *)
Definition div (x y : number) : number :=
  match x, y with
  | NaN, _ | _, NaN => NaN
  | Fin a, Fin b =>
      match sgn b with
      | Eq => inf_signed true (sgn a)
      | _ => round (a / b)%Qc
      end
  | Fin _, (PInf | NInf) => zero
  | PInf, Fin b => match sgn b with Lt => NInf | _ => PInf end
  | NInf, Fin b => match sgn b with Lt => PInf | _ => NInf end
  | (PInf | NInf), (PInf | NInf) => NaN
  end.

End Rounded.

(** [x < y]; every comparison with [NaN] is false. *)
Definition ltb (x y : number) : bool :=
  match x, y with
  | NaN, _ | _, NaN => false
  | Fin a, Fin b => match (a ?= b)%Qc with Lt => true | _ => false end
  | NInf, (Fin _ | PInf) => true
  | Fin _, PInf => true
  | _, _ => false
  end.

(** [x >= y]. *)
Definition geb (x y : number) : bool :=
  match x, y with
  | NaN, _ | _, NaN => false
  | Fin a, Fin b => match (a ?= b)%Qc with Lt => false | _ => true end
  | PInf, _ => true
  | _, NInf => true
  | _, _ => false
  end.

Definition eqb (x y : number) : bool :=
  match x, y with
  | Fin a, Fin b => Qeq_bool a b
  | PInf, PInf | NInf, NInf | NaN, NaN => true
  | _, _ => false
  end.

(** [Number.isFinite]. *)
Definition isFinite (x : number) : bool :=
  match x with Fin _ => true | _ => false end.

(** Truthiness of a number: [0] and [NaN] are falsy. *)
Definition truthy (x : number) : bool :=
  match x with
  | Fin q => match sgn q with Eq => false | _ => true end
  | NaN => false
  | _ => true
  end.

(** [x || y] on numbers. *)
Definition or (x y : number) : number := if truthy x then x else y.


(** ** Two arithmetics *)

(** Exact arithmetic: nothing is rounded. *)
Definition Exact : Arithmetic := {| round := Fin; round_zero := eq_refl |}.

(** The value of a binary floating-point datum. *)
Definition ofSpecFloat (f : spec_float) : number :=
  match f with
  | S754_zero _ => Fin (Q2Qc 0)
  | S754_infinity false => PInf
  | S754_infinity true => NInf
  | S754_nan => NaN
  | S754_finite s m e =>
      let z := if s then Z.neg m else Z.pos m in
      Fin (Q2Qc (if (0 <=? e)%Z then inject_Z (z * 2 ^ e)
                 else z # Z.to_pos (2 ^ (- e))))
  end.

(** The IEEE 754 binary64 number nearest to [q], the one of even
    significand of two, and an infinity from [2^1024 - 2^970] on: the
    quotient of the numerator by the denominator as [SFdiv] rounds it with
    a precision of 53 bits and the exponents of binary64. *)
Definition round64 (q : Qc) : number :=
  let d := S754_finite false (Qden q) 0 in
  match Qnum q with
  | Z0 => Fin q
  | Zpos n => ofSpecFloat (SFdiv 53 1024 (S754_finite false n 0) d)
  | Zneg n => ofSpecFloat (SFdiv 53 1024 (S754_finite true n 0) d)
  end.

(** The arithmetic of the program: every result is rounded to binary64. *)
Definition Binary64 : Arithmetic :=
  {| round := round64; round_zero := eq_refl |}.

End JS.

Declare Scope js_scope.
Delimit Scope js_scope with js.
Bind Scope js_scope with JS.number.
Infix "+" := JS.add : js_scope.
Infix "-" := JS.sub : js_scope.
Infix "*" := JS.mul : js_scope.
Infix "/" := JS.div : js_scope.
Notation "x <? y" := (JS.ltb x y) : js_scope.
Notation "x >=? y" := (JS.geb x y) : js_scope.

(* ================================================================== *)
(** * JavaScript strings and the conversions between strings and numbers *)

Module Str.

Import JS.
Local Open Scope string_scope.
Local Open Scope char_scope.

(** ASCII white space: TAB, LF, VT, FF, CR and the space. *)
Definition isWhiteSpace (c : ascii) : bool :=
  let n := nat_of_ascii c in
  ((9 <=? n) && (n <=? 13))%nat || (n =? 32)%nat.

Fixpoint trimStart (s : string) : string :=
  match s with
  | String c r => if isWhiteSpace c then trimStart r else s
  | EmptyString => EmptyString
  end.

Fixpoint trimEnd (s : string) : string :=
  match s with
  | String c r =>
      match trimEnd r with
      | EmptyString => if isWhiteSpace c then EmptyString else String c EmptyString
      | r' => String c r'
      end
  | EmptyString => EmptyString
  end.

Definition trim (s : string) : string := trimEnd (trimStart s).

(** [s.includes(p)]. *)
Definition includes (s p : string) : bool :=
  match index 0 p s with Some _ => true | None => false end.

(** [s.replace(p, r)] for a string pattern [p]: the first occurrence only.
    The replacement is taken as it is: the patterns that start with a
    dollar sign do not occur in a printed number. *)
Definition replace (s p r : string) : string :=
  match index 0 p s with
  | Some i =>
      substring 0 i s ++ r ++
      substring (i + length p) (length s - (i + length p)) s
  | None => s
  end.

(** [dropPrefix p s] is what follows [p] in [s] when [s] starts with [p]. *)
Fixpoint dropPrefix (p s : string) : option string :=
  match p, s with
  | EmptyString, _ => Some s
  | String a p', String b s' => if Ascii.eqb a b then dropPrefix p' s' else None
  | String _ _, EmptyString => None
  end.

Definition digit_of (c : ascii) : option (Decimal.uint -> Decimal.uint) :=
  match c with
  | "0" => Some Decimal.D0 | "1" => Some Decimal.D1 | "2" => Some Decimal.D2
  | "3" => Some Decimal.D3 | "4" => Some Decimal.D4 | "5" => Some Decimal.D5
  | "6" => Some Decimal.D6 | "7" => Some Decimal.D7 | "8" => Some Decimal.D8
  | "9" => Some Decimal.D9
  | _ => None
  end.

(** The longest prefix of decimal digits, and what follows it. *)
Fixpoint digits (s : string) : Decimal.uint * string :=
  match s with
  | String c r =>
      match digit_of c with
      | Some d => let (u, rest) := digits r in (d u, rest)
      | None => (Decimal.Nil, s)
      end
  | EmptyString => (Decimal.Nil, EmptyString)
  end.

(** [m * 10^e] as a rational. *)
Definition scale10 (m e : Z) : Qc :=
  if (0 <=? e)%Z then Q2Qc (inject_Z (m * 10 ^ e))
  else Q2Qc (m # Z.to_pos (10 ^ (- e))).

(** The value of [ip.fp] times [10^e]. *)
Definition decimal (ip fp : Decimal.uint) (e : Z) : Qc :=
  let k := Z.of_nat (Decimal.nb_digits fp) in
  let m := (Z.of_N (N.of_uint ip) * 10 ^ k + Z.of_N (N.of_uint fp))%Z in
  scale10 m (e - k).

(** An exponent part [e], [e+] or [e-] followed by at least one digit; when
    there is none the exponent is [0] and nothing is consumed. *)
Definition exponentPart (s : string) : Z * string :=
  match s with
  | String c r =>
      if Ascii.eqb c "e" || Ascii.eqb c "E" then
        let '(minus, r1) :=
          match r with
          | String "+" t => (false, t)
          | String "-" t => (true, t)
          | _ => (false, r)
          end in
        let (u, rest) := digits r1 in
        match u with
        | Decimal.Nil => (0%Z, s)
        | _ => let n := Z.of_N (N.of_uint u) in
               ((if minus then - n else n)%Z, rest)
        end
      else (0%Z, s)
  | EmptyString => (0%Z, s)
  end.

Section Literals.
Context {A : Arithmetic}.

(** The longest prefix that is a StrUnsignedDecimalLiteral. *)
Definition strUnsignedDecimalLiteral (s : string) : option (number * string) :=
  match dropPrefix "Infinity" s with
  | Some rest => Some (PInf, rest)
  | None =>
      let (ip, r1) := digits s in
      match r1 with
      | String "." r2 =>
          let (fp, r3) := digits r2 in
          match ip, fp with
          | Decimal.Nil, Decimal.Nil => None
          | _, _ =>
              let (e, r4) := exponentPart r3 in Some (round (decimal ip fp e), r4)
          end
      | _ =>
          match ip with
          | Decimal.Nil => None
          | _ =>
              let (e, r4) := exponentPart r1 in
              Some (round (decimal ip Decimal.Nil e), r4)
          end
      end
  end.

(** The longest prefix that is a StrDecimalLiteral (an optional sign first). *)
Definition strDecimalLiteral (s : string) : option (number * string) :=
  match s with
  | String "+" r => strUnsignedDecimalLiteral r
  | String "-" r =>
      match strUnsignedDecimalLiteral r with
      | Some (v, rest) => Some (neg v, rest)
      | None => None
      end
  | _ => strUnsignedDecimalLiteral s
  end.

(** [parseFloat(s)]. *)
Definition parseFloat (s : string) : number :=
  match strDecimalLiteral (trimStart s) with
  | Some (v, _) => v
  | None => NaN
  end.

(** Digits of the radixes 2, 8 and 16, for [0b], [0o] and [0x] literals. *)
Definition radix_digit (radix : N) (c : ascii) : option N :=
  let n := N_of_ascii c in
  let d :=
    if ((48 <=? n) && (n <=? 57))%N then Some (n - 48)%N
    else if ((97 <=? n) && (n <=? 102))%N then Some (n - 87)%N
    else if ((65 <=? n) && (n <=? 70))%N then Some (n - 55)%N
    else None in
  match d with
  | Some v => if (v <? radix)%N then Some v else None
  | None => None
  end.

Fixpoint radix_value (radix : N) (acc : N) (s : string) : option N :=
  match s with
  | EmptyString => Some acc
  | String c r =>
      match radix_digit radix c with
      | Some d => radix_value radix (acc * radix + d)%N r
      | None => None
      end
  end.

Definition nonDecimalIntegerLiteral (s : string) : option number :=
  match s with
  | String "0" (String c body) =>
      let lit radix :=
        match body with
        | EmptyString => Some NaN
        | _ =>
            match radix_value radix 0 body with
            | Some n => Some (round (Q2Qc (inject_Z (Z.of_N n))))
            | None => Some NaN
            end
        end in
      if Ascii.eqb c "x" || Ascii.eqb c "X" then lit 16%N
      else if Ascii.eqb c "o" || Ascii.eqb c "O" then lit 8%N
      else if Ascii.eqb c "b" || Ascii.eqb c "B" then lit 2%N
      else None
  | _ => None
  end.

(** [Number(s)] on a string: the whole trimmed string has to be a numeric
    literal, and the empty string is [0]. *)
Definition Number (s : string) : number :=
  match trim s with
  | EmptyString => zero
  | t =>
      match nonDecimalIntegerLiteral t with
      | Some v => v
      | None =>
          match strDecimalLiteral t with
          | Some (v, EmptyString) => v
          | _ => NaN
          end
      end
  end.

End Literals.

(** The integer nearest to [|q| * 10^f], the larger one of two. *)
Definition roundScaled (q : Q) (f : nat) : N :=
  let a := (Z.abs (Qnum q) * 10 ^ Z.of_nat f)%Z in
  let b := Z.pos (Qden q) in
  Z.to_N ((2 * a + b) / (2 * b)).

(** [u] padded with zeros on the left to [f] digits. *)
Definition padLeft (f : nat) (u : Decimal.uint) : Decimal.uint :=
  Nat.iter (f - Decimal.nb_digits u) Decimal.D0 u.

(** [x.toFixed(f)].  From [1e21] on JavaScript prints the number in
    exponential notation instead; here every finite number is printed in
    fixed notation. *)
Definition toFixed (x : number) (f : nat) : string :=
  match x with
  | NaN => "NaN"%string
  | PInf => "Infinity"%string
  | NInf => "-Infinity"%string
  | Fin q =>
      let n := roundScaled q f in
      let p := (10 ^ N.of_nat f)%N in
      let s := match sgn q with Lt => "-"%string | _ => ""%string end in
      let ip := NilEmpty.string_of_uint (N.to_uint (n / p)) in
      match f with
      | O => (s ++ ip)%string
      | _ => (s ++ ip ++ "." ++
              NilEmpty.string_of_uint (padLeft f (N.to_uint (n mod p))))%string
      end
  end.

(** The string does not start with a decimal digit. *)
Definition noDigitHead (s : string) : Prop :=
  match s with
  | String c _ => digit_of c = None
  | EmptyString => True
  end.

(** No character of the string is white space. *)
Fixpoint noWhiteSpace (s : string) : bool :=
  match s with
  | String c r => negb (isWhiteSpace c) && noWhiteSpace r
  | EmptyString => true
  end.

End Str.

Open Scope string_scope.

(* ================================================================== *)
(** * JavaScript values, objects and the host *)

(** What is left to the JavaScript engine: [eval], of which the result is
    taken to be a number as the return type of [calculateShippingCost]
    declares it ([None] when it throws) and to depend on the text of the
    formula only, not on a variable of the program that the formula might
    name; and the printing of a number. *)
Class Host : Type := {
  eval : string -> option JS.number;
  numberToString : JS.number -> string
}.

(** The values of type [any] that reach the helpers. *)
Inductive value : Type :=
| VUndefined
| VNull
| VBool (b : bool)
| VNumber (n : JS.number)
| VString (s : string).

(** [v ?? d]. *)
Definition nullish (v d : value) : value :=
  match v with
  | VUndefined | VNull => d
  | _ => v
  end.

(** [String(v)]. *)
Definition ToString `{Host} (v : value) : string :=
  match v with
  | VUndefined => "undefined"
  | VNull => "null"
  | VBool true => "true"
  | VBool false => "false"
  | VNumber n => numberToString n
  | VString s => s
  end.

(** Decimal notation of an integer, as identifiers are printed. *)
Definition string_of_Z (z : Z) : string :=
  NilEmpty.string_of_int (Z.to_int z).

(** What a call comes to: it throws, or it returns. *)
Inductive Outcome (A : Type) : Type :=
| Throws
| Returns (a : A).
Arguments Throws {A}.

(** Objects used as maps from strings.  The association list is kept in
    the order in which the engine enumerates the own properties: the keys
    that are array indices first, in ascending order, then the other keys
    in the order of their creation.  An object that is written [{}] in the
    source inherits the properties of [Object.prototype]; what they hold
    is not part of the model, only that they are there. *)
Module Obj.

Definition t (V : Type) : Type := list (string * V).

(** The array index that a key denotes: a canonical decimal numeral of at
    most [2^32 - 2]. *)
Definition arrayIndex (k : string) : option N :=
  match NilEmpty.uint_of_string k with
  | Some u =>
      if Decimal.uint_beq (Decimal.unorm u) u then
        let n := N.of_uint u in
        if (n <=? 4294967294)%N then Some n else None
      else None
  | None => None
  end.

(** Whether a new key [k] is enumerated before the existing key [k']. *)
Definition before (k k' : string) : bool :=
  match arrayIndex k, arrayIndex k' with
  | Some n, Some n' => (n <? n')%N
  | Some _, None => true
  | None, _ => false
  end.

Section Ops.
Variable V : Type.

Fixpoint get (o : t V) (k : string) : option V :=
  match o with
  | [] => None
  | (k', v) :: r => if String.eqb k k' then Some v else get r k
  end.

Fixpoint create (o : t V) (k : string) (v : V) : t V :=
  match o with
  | [] => [(k, v)]
  | (k', v') :: r =>
      if before k k' then (k, v) :: o else (k', v') :: create r k v
  end.

Fixpoint update (o : t V) (k : string) (v : V) : t V :=
  match o with
  | [] => []
  | (k', v') :: r =>
      if String.eqb k k' then (k', v) :: r else (k', v') :: update r k v
  end.

(** [o[k] = v]. *)
Definition set (o : t V) (k : string) (v : V) : t V :=
  match get o k with
  | Some _ => update o k v
  | None => create o k v
  end.

(** [Object.entries(o)]. *)
Definition entries (o : t V) : list (string * V) := o.

Definition keys (o : t V) : list string := map fst o.

End Ops.

(** The names of the properties of [Object.prototype] (ECMA-262, 20.1.3
    and B.2.2): each of them holds a function, and [__proto__] the
    prototype object itself. *)
Definition inherited (k : string) : bool :=
  existsb (String.eqb k)
    [ "constructor"; "hasOwnProperty"; "isPrototypeOf"; "propertyIsEnumerable";
      "toLocaleString"; "toString"; "valueOf"; "__proto__";
      "__defineGetter__"; "__defineSetter__"; "__lookupGetter__";
      "__lookupSetter__" ].

(** What [o[k]] reads in an object that was created as [{}]: the value of
    the own property, a value that comes from [Object.prototype], or
    [undefined]. *)
Inductive Property (V : Type) : Type :=
| Own (v : V)
| Inherited
| Undefined.
Arguments Inherited {V}.
Arguments Undefined {V}.

Definition read (V : Type) (o : t V) (k : string) : Property V :=
  match get o k with
  | Some v => Own v
  | None => if inherited k then Inherited else Undefined
  end.

End Obj.

(* ================================================================== *)
(** * Types of the cart screen *)

Module CartItem.
Record t : Type := {
  id : string;
  name : string;
  price : JS.number;
  originalPrice : JS.number;
  size : string;
  color : string;
  image : string;                         (* image.uri *)
  quantity : JS.number;
  tax_class : option string;
  tax_status : option string;
  payment_methods : option (list string)
}.
End CartItem.

Module AppliedCouponMeta.
Record t : Type := {
  code : string;
  amount : string;
  discount_type : string
}.
End AppliedCouponMeta.

(** One entry of [settings] of a shipping method. *)
Module Setting.
Record t : Type := {
  id : string;
  label : string;
  description : string;
  type : string;
  value : string;
  default : string;
  tip : string;
  placeholder : string
}.
End Setting.

Module Settings.
Record t : Type := {
  title : Setting.t;
  tax_status : Setting.t;
  cost : Setting.t
}.
End Settings.

Module ShippingMethod.
Record t : Type := {
  id : Z;
  instance_id : Z;
  title : string;
  order : Z;
  enabled : bool;
  method_id : string;
  method_title : string;
  method_description : string;
  settings : Settings.t
}.
End ShippingMethod.

Module ShippingLine.
Record t : Type := {
  id : Z;
  method_title : string;
  method_id : string;
  instance_id : string;
  total : string;
  total_tax : string;
  taxes : list value;
  tax_status : string;
  meta_data : list value
}.
End ShippingLine.

Module TaxRate.
Record t : Type := {
  id : Z;
  country : string;
  state : string;
  postcode : string;
  city : string;
  rate : string;
  name : string;
  priority : Z;
  compound : bool;
  shipping : bool;
  order : Z;
  class : string;
  postcodes : list string;
  cities : list string
}.
End TaxRate.

Module TaxLine.
Record t : Type := {
  id : Z;
  rate_code : string;
  rate_id : Z;
  label : string;
  compound : bool;
  tax_total : JS.number;
  shipping_tax_total : JS.number;
  rate_percent : JS.number;
  tax_class : option string
}.
End TaxLine.

Module TaxCalculation.
Record t : Type := {
  tax_total : JS.number;
  shipping_tax_total : JS.number;
  tax_lines : list TaxLine.t
}.
End TaxCalculation.

(** The fields of a payment gateway that are plain data; the settings map
    and the set-up links, which the screen never reads, are left out. *)
Module PaymentGateway.
Record t : Type := {
  id : string;
  title : string;
  description : string;
  order : Z;
  enabled : bool;
  method_title : string;
  method_description : string;
  method_supports : list string
}.
End PaymentGateway.

(** The result of [determinePaymentMethod] when it is not [null]. *)
Module PaymentMethod.
Record t : Type := {
  method : string;
  gateway : PaymentGateway.t;
  description : string
}.
End PaymentMethod.

(** The result of [calculateGSTBreakdown]. *)
Module GST.
Record t : Type := {
  cgst : JS.number;
  sgst : JS.number;
  igst : JS.number;
  total : JS.number
}.
End GST.

(** A group of [itemsByTaxClass]. *)
Module ClassGroup.
Record t : Type := {
  subtotal : JS.number;
  items : list CartItem.t
}.
End ClassGroup.

(* ================================================================== *)
(** * Helpers of the cart screen *)

Section Helpers.
Context {A : JS.Arithmetic} {H : Host}.
Local Open Scope js_scope.

(** [toNum(v, fb)]; the callers that leave [fb] out pass [JS.zero]. *)
Definition toNum (v : value) (fb : JS.number) : JS.number :=
  let n := Str.parseFloat (ToString (nullish v (VString ""))) in
  if JS.isFinite n then n else fb.

Definition calcCouponDiscount
    (subtotal : JS.number) (coupons : list AppliedCouponMeta.t) : JS.number :=
  fold_left
    (fun sum c =>
       if String.eqb (AppliedCouponMeta.discount_type c) "percent" then
         sum + (subtotal * Str.parseFloat (AppliedCouponMeta.amount c) / JS.hundred)
       else if String.eqb (AppliedCouponMeta.discount_type c) "fixed_cart" then
         sum + Str.parseFloat (AppliedCouponMeta.amount c)
       else sum)
    coupons JS.zero.

(** ** Shipping *)

Definition calculateShippingCost
    (shippingMethod : ShippingMethod.t) (cartItems : list CartItem.t)
  : JS.number :=
  let costFormula :=
    Setting.value (Settings.cost (ShippingMethod.settings shippingMethod)) in
  if Str.includes costFormula "[qty]" then
    let totalQuantity :=
      fold_left (fun sum item => sum + CartItem.quantity item) cartItems JS.zero in
    let baseCost :=
      Str.replace costFormula "[qty]" (numberToString totalQuantity) in
    match eval baseCost with
    | Some v => v
    | None => toNum (VString costFormula) JS.zero
    end
  else if Str.includes costFormula "[cost]" then
    let totalCost :=
      fold_left
        (fun sum item => sum + CartItem.price item * CartItem.quantity item)
        cartItems JS.zero in
    let baseCost :=
      Str.replace costFormula "[cost]" (numberToString totalCost) in
    match eval baseCost with
    | Some v => v
    | None => toNum (VString costFormula) JS.zero
    end
  else toNum (VString costFormula) JS.zero.

(** ** Taxes *)

(** [item.tax_class || 'standard']. *)
Definition taxClassOf (item : CartItem.t) : string :=
  match CartItem.tax_class item with
  | Some c => if String.eqb c "" then "standard" else c
  | None => "standard"
  end.

(** The body of the loop that fills [itemsByTaxClass].  A value that comes
    from [Object.prototype] is truthy, so that no group is created for its
    name; it has no [items], and the call of [push] throws. *)
Definition addToClass
    (itemsByTaxClass : Obj.t ClassGroup.t) (item : CartItem.t)
  : Outcome (Obj.t ClassGroup.t) :=
  let taxClass := taxClassOf item in
  let o :=
    match Obj.read itemsByTaxClass taxClass with
    | Obj.Undefined =>
        Obj.set itemsByTaxClass taxClass
          {| ClassGroup.subtotal := JS.zero; ClassGroup.items := [] |}
    | _ => itemsByTaxClass
    end in
  match Obj.read o taxClass with
  | Obj.Own g =>
      Returns
        (Obj.set o taxClass
           {| ClassGroup.subtotal :=
                ClassGroup.subtotal g
                + CartItem.price item * CartItem.quantity item;
              ClassGroup.items := ClassGroup.items g ++ [item] |})
  | _ => Throws
  end.

(** [cartItems.forEach] of that body: the first throw ends the loop. *)
Definition groupByTaxClass (cartItems : list CartItem.t)
  : Outcome (Obj.t ClassGroup.t) :=
  fold_left
    (fun itemsByTaxClass item =>
       match itemsByTaxClass with
       | Returns o => addToClass o item
       | Throws => Throws
       end)
    cartItems (Returns []).

(** The predicate of [taxRates.filter]. *)
Definition rateApplies (taxClass : string) (rate : TaxRate.t) : bool :=
  String.eqb (TaxRate.class rate) taxClass
  || (String.eqb taxClass "standard" && String.eqb (TaxRate.class rate) "").

(** The body of [applicableRates.forEach]: the running totals and the tax
    lines are threaded through as a [TaxCalculation.t]. *)
Definition applyRate
    (taxClass : string) (classSubtotal shippingTotal : JS.number)
    (acc : TaxCalculation.t) (rate : TaxRate.t) : TaxCalculation.t :=
  let ratePercent := toNum (VString (TaxRate.rate rate)) JS.zero in
  let item_tax := (classSubtotal * ratePercent) / JS.hundred in
  let shipping_tax :=
    if TaxRate.shipping rate then (shippingTotal * ratePercent) / JS.hundred
    else JS.zero in
  {| TaxCalculation.tax_total := TaxCalculation.tax_total acc + item_tax;
     TaxCalculation.shipping_tax_total :=
       TaxCalculation.shipping_tax_total acc + shipping_tax;
     TaxCalculation.tax_lines :=
       TaxCalculation.tax_lines acc ++
       [ {| TaxLine.id := TaxRate.id rate;
            TaxLine.rate_code := "TAX-" ++ string_of_Z (TaxRate.id rate);
            TaxLine.rate_id := TaxRate.id rate;
            TaxLine.label := TaxRate.name rate;
            TaxLine.compound := TaxRate.compound rate;
            TaxLine.tax_total := item_tax;
            TaxLine.shipping_tax_total := shipping_tax;
            TaxLine.rate_percent := ratePercent;
            TaxLine.tax_class := Some taxClass |} ] |}.

(** The body of [Object.entries(itemsByTaxClass).forEach]. *)
Definition applyClass
    (shippingTotal : JS.number) (taxRates : list TaxRate.t)
    (acc : TaxCalculation.t) (entry : string * ClassGroup.t)
  : TaxCalculation.t :=
  let '(taxClass, g) := entry in
  let applicableRates := filter (rateApplies taxClass) taxRates in
  fold_left (applyRate taxClass (ClassGroup.subtotal g) shippingTotal)
    applicableRates acc.

Definition calculateTaxes
    (cartItems : list CartItem.t) (subtotal shippingTotal : JS.number)
    (taxRates : list TaxRate.t) : Outcome TaxCalculation.t :=
  match groupByTaxClass cartItems with
  | Throws => Throws
  | Returns itemsByTaxClass =>
      Returns
        (fold_left (applyClass shippingTotal taxRates)
           (Obj.entries itemsByTaxClass)
           {| TaxCalculation.tax_total := JS.zero;
              TaxCalculation.shipping_tax_total := JS.zero;
              TaxCalculation.tax_lines := [] |})
  end.

(** ** GST breakdown *)

(** The body of [tax_lines.forEach]: the accumulators [cgst] and [sgst]. *)
Definition splitLine
    (acc : JS.number * JS.number) (taxLine : TaxLine.t) : JS.number * JS.number :=
  let '(cgst, sgst) := acc in
  let halfTax := TaxLine.tax_total taxLine / JS.two in
  let cgst := cgst + halfTax in
  let sgst := sgst + halfTax in
  let halfShippingTax := TaxLine.shipping_tax_total taxLine / JS.two in
  let cgst := cgst + halfShippingTax in
  let sgst := sgst + halfShippingTax in
  (cgst, sgst).

Definition calculateGSTBreakdown (taxCalculation : option TaxCalculation.t) : GST.t :=
  match taxCalculation with
  | None =>
      {| GST.cgst := JS.zero; GST.sgst := JS.zero; GST.igst := JS.zero;
         GST.total := JS.zero |}
  | Some tc =>
      let igst := JS.zero in
      let '(cgst, sgst) :=
        fold_left splitLine (TaxCalculation.tax_lines tc) (JS.zero, JS.zero) in
      {| GST.cgst := Str.Number (Str.toFixed cgst 2);
         GST.sgst := Str.Number (Str.toFixed sgst 2);
         GST.igst := Str.Number (Str.toFixed igst 2);
         GST.total := Str.Number (Str.toFixed (cgst + sgst + igst) 2) |}
  end.

(** ** Payment method *)

(** The predicate of [cartItems.every]. *)
Definition supportsCOD (item : CartItem.t) : bool :=
  match CartItem.payment_methods item with
  | Some l => existsb (String.eqb "cod") l || (List.length l =? 0)%nat
  | None => true
  end.

Definition determinePaymentMethod
    (cartItems : list CartItem.t) (paymentGateways : list PaymentGateway.t)
  : option PaymentMethod.t :=
  let enabledGateways := filter PaymentGateway.enabled paymentGateways in
  let allProductsSupportCOD := forallb supportsCOD cartItems in
  let codGateway :=
    find (fun g => String.eqb (PaymentGateway.id g) "cod") enabledGateways in
  let razorpayGateway :=
    find (fun g => String.eqb (PaymentGateway.id g) "razorpay") enabledGateways in
  match (if allProductsSupportCOD then codGateway else None) with
  | Some cod =>
      Some {| PaymentMethod.method := "cod";
              PaymentMethod.gateway := cod;
              PaymentMethod.description :=
                "Cash on delivery - Pay with cash upon delivery." |}
  | None =>
      match razorpayGateway with
      | Some rz =>
          Some {| PaymentMethod.method := "razorpay";
                  PaymentMethod.gateway := rz;
                  PaymentMethod.description :=
                    "Credit Card/Debit Card/NetBanking - Secure online payment" |}
      | None =>
          match codGateway with
          | Some cod =>
              Some {| PaymentMethod.method := "cod";
                      PaymentMethod.gateway := cod;
                      PaymentMethod.description :=
                        "Cash on delivery - Pay with cash upon delivery." |}
          | None => None
          end
      end
  end.

End Helpers.

(* ================================================================== *)
(** * The [Cart] component *)

(** What [fetch] followed by [response.json()] comes to: one of the two
    throws, or there is a response with its [ok] flag and its body. *)
Inductive Fetched (A : Type) : Type :=
| FetchThrows
| FetchResponse (ok : bool) (json : A).
Arguments FetchThrows {A}.

(** An entry of the customer's [cart] meta value. *)
Module CartEntry.
Record t : Type := {
  id : Z;
  quantity : option JS.number
}.
End CartEntry.

(** The two meta values that [loadCart] looks up in the customer record;
    a missing customer or a missing value is the empty list. *)
Module Customer.
Record t : Type := {
  cart : list CartEntry.t;
  applied_coupons : list AppliedCouponMeta.t
}.
End Customer.

(** What [loadCart] reads of a product; [color], [size] and [image] are
    the display values already taken out of the attributes and images. *)
Module ProductData.
Record t : Type := {
  id : Z;
  name : string;
  sale_price : value;
  price : value;
  regular_price : value;
  color : string;
  size : string;
  image : string;
  tax_class : string;
  tax_status : string
}.
End ProductData.

(** The state of the component: one field for each [useState] that takes
    part in the computation of the order (the busy flags and the visibility
    of the summary are display only). *)
Module State.
Record t : Type := {
  cartItems : list CartItem.t;
  loading : bool;
  userId : option Z;
  errorText : string;
  appliedCoupons : list AppliedCouponMeta.t;
  shippingMethods : list ShippingMethod.t;
  selectedShippingMethod : option ShippingMethod.t;
  shippingLines : list ShippingLine.t;
  taxRates : list TaxRate.t;
  taxCalculation : option TaxCalculation.t;
  paymentGateways : list PaymentGateway.t;
  selectedPaymentMethod : option PaymentMethod.t
}.

Definition setCartItems (v : list CartItem.t) (st : t) : t :=
  {| cartItems := v;
     loading := loading st;
     userId := userId st;
     errorText := errorText st;
     appliedCoupons := appliedCoupons st;
     shippingMethods := shippingMethods st;
     selectedShippingMethod := selectedShippingMethod st;
     shippingLines := shippingLines st;
     taxRates := taxRates st;
     taxCalculation := taxCalculation st;
     paymentGateways := paymentGateways st;
     selectedPaymentMethod := selectedPaymentMethod st |}.

Definition setLoading (v : bool) (st : t) : t :=
  {| cartItems := cartItems st;
     loading := v;
     userId := userId st;
     errorText := errorText st;
     appliedCoupons := appliedCoupons st;
     shippingMethods := shippingMethods st;
     selectedShippingMethod := selectedShippingMethod st;
     shippingLines := shippingLines st;
     taxRates := taxRates st;
     taxCalculation := taxCalculation st;
     paymentGateways := paymentGateways st;
     selectedPaymentMethod := selectedPaymentMethod st |}.

Definition setUserId (v : option Z) (st : t) : t :=
  {| cartItems := cartItems st;
     loading := loading st;
     userId := v;
     errorText := errorText st;
     appliedCoupons := appliedCoupons st;
     shippingMethods := shippingMethods st;
     selectedShippingMethod := selectedShippingMethod st;
     shippingLines := shippingLines st;
     taxRates := taxRates st;
     taxCalculation := taxCalculation st;
     paymentGateways := paymentGateways st;
     selectedPaymentMethod := selectedPaymentMethod st |}.

Definition setErrorText (v : string) (st : t) : t :=
  {| cartItems := cartItems st;
     loading := loading st;
     userId := userId st;
     errorText := v;
     appliedCoupons := appliedCoupons st;
     shippingMethods := shippingMethods st;
     selectedShippingMethod := selectedShippingMethod st;
     shippingLines := shippingLines st;
     taxRates := taxRates st;
     taxCalculation := taxCalculation st;
     paymentGateways := paymentGateways st;
     selectedPaymentMethod := selectedPaymentMethod st |}.

Definition setAppliedCoupons (v : list AppliedCouponMeta.t) (st : t) : t :=
  {| cartItems := cartItems st;
     loading := loading st;
     userId := userId st;
     errorText := errorText st;
     appliedCoupons := v;
     shippingMethods := shippingMethods st;
     selectedShippingMethod := selectedShippingMethod st;
     shippingLines := shippingLines st;
     taxRates := taxRates st;
     taxCalculation := taxCalculation st;
     paymentGateways := paymentGateways st;
     selectedPaymentMethod := selectedPaymentMethod st |}.

Definition setShippingMethods (v : list ShippingMethod.t) (st : t) : t :=
  {| cartItems := cartItems st;
     loading := loading st;
     userId := userId st;
     errorText := errorText st;
     appliedCoupons := appliedCoupons st;
     shippingMethods := v;
     selectedShippingMethod := selectedShippingMethod st;
     shippingLines := shippingLines st;
     taxRates := taxRates st;
     taxCalculation := taxCalculation st;
     paymentGateways := paymentGateways st;
     selectedPaymentMethod := selectedPaymentMethod st |}.

Definition setSelectedShippingMethod (v : option ShippingMethod.t) (st : t) : t :=
  {| cartItems := cartItems st;
     loading := loading st;
     userId := userId st;
     errorText := errorText st;
     appliedCoupons := appliedCoupons st;
     shippingMethods := shippingMethods st;
     selectedShippingMethod := v;
     shippingLines := shippingLines st;
     taxRates := taxRates st;
     taxCalculation := taxCalculation st;
     paymentGateways := paymentGateways st;
     selectedPaymentMethod := selectedPaymentMethod st |}.

Definition setShippingLines (v : list ShippingLine.t) (st : t) : t :=
  {| cartItems := cartItems st;
     loading := loading st;
     userId := userId st;
     errorText := errorText st;
     appliedCoupons := appliedCoupons st;
     shippingMethods := shippingMethods st;
     selectedShippingMethod := selectedShippingMethod st;
     shippingLines := v;
     taxRates := taxRates st;
     taxCalculation := taxCalculation st;
     paymentGateways := paymentGateways st;
     selectedPaymentMethod := selectedPaymentMethod st |}.

Definition setTaxRates (v : list TaxRate.t) (st : t) : t :=
  {| cartItems := cartItems st;
     loading := loading st;
     userId := userId st;
     errorText := errorText st;
     appliedCoupons := appliedCoupons st;
     shippingMethods := shippingMethods st;
     selectedShippingMethod := selectedShippingMethod st;
     shippingLines := shippingLines st;
     taxRates := v;
     taxCalculation := taxCalculation st;
     paymentGateways := paymentGateways st;
     selectedPaymentMethod := selectedPaymentMethod st |}.

Definition setTaxCalculation (v : option TaxCalculation.t) (st : t) : t :=
  {| cartItems := cartItems st;
     loading := loading st;
     userId := userId st;
     errorText := errorText st;
     appliedCoupons := appliedCoupons st;
     shippingMethods := shippingMethods st;
     selectedShippingMethod := selectedShippingMethod st;
     shippingLines := shippingLines st;
     taxRates := taxRates st;
     taxCalculation := v;
     paymentGateways := paymentGateways st;
     selectedPaymentMethod := selectedPaymentMethod st |}.

Definition setPaymentGateways (v : list PaymentGateway.t) (st : t) : t :=
  {| cartItems := cartItems st;
     loading := loading st;
     userId := userId st;
     errorText := errorText st;
     appliedCoupons := appliedCoupons st;
     shippingMethods := shippingMethods st;
     selectedShippingMethod := selectedShippingMethod st;
     shippingLines := shippingLines st;
     taxRates := taxRates st;
     taxCalculation := taxCalculation st;
     paymentGateways := v;
     selectedPaymentMethod := selectedPaymentMethod st |}.

Definition setSelectedPaymentMethod (v : option PaymentMethod.t) (st : t) : t :=
  {| cartItems := cartItems st;
     loading := loading st;
     userId := userId st;
     errorText := errorText st;
     appliedCoupons := appliedCoupons st;
     shippingMethods := shippingMethods st;
     selectedShippingMethod := selectedShippingMethod st;
     shippingLines := shippingLines st;
     taxRates := taxRates st;
     taxCalculation := taxCalculation st;
     paymentGateways := paymentGateways st;
     selectedPaymentMethod := v |}.

(** The initial values of the [useState] calls. *)
Definition initial : t :=
  {| cartItems := [];
     loading := true;
     userId := None;
     errorText := "";
     appliedCoupons := [];
     shippingMethods := [];
     selectedShippingMethod := None;
     shippingLines := [];
     taxRates := [];
     taxCalculation := None;
     paymentGateways := [];
     selectedPaymentMethod := None |}.
End State.

Section Component.
Context {A : JS.Arithmetic} {H : Host}.
Local Open Scope js_scope.
Import State.

(** ** Loading the inputs *)

Definition loadPaymentGateways
    (response : Fetched (list PaymentGateway.t)) : list PaymentGateway.t :=
  match response with
  | FetchResponse true gateways => gateways
  | _ => []
  end.

Definition loadTaxRates (response : Fetched (list TaxRate.t)) : list TaxRate.t :=
  match response with
  | FetchResponse true rates => rates
  | _ => []
  end.

Definition loadShippingMethods
    (response : Fetched (list ShippingMethod.t)) : list ShippingMethod.t :=
  match response with
  | FetchResponse true methods => filter ShippingMethod.enabled methods
  | _ => []
  end.

(** ** Shipping lines and the default method *)

Definition calculateShippingLines
    (methods : list ShippingMethod.t) (items : list CartItem.t)
  : list ShippingLine.t :=
  match methods, items with
  | [], _ | _, [] => []
  | _, _ =>
      flat_map
        (fun method =>
           if ShippingMethod.enabled method then
             let shippingCost := calculateShippingCost method items in
             [ {| ShippingLine.id := ShippingMethod.id method;
                  ShippingLine.method_title :=
                    Setting.value (Settings.title (ShippingMethod.settings method));
                  ShippingLine.method_id := ShippingMethod.method_id method;
                  ShippingLine.instance_id :=
                    string_of_Z (ShippingMethod.instance_id method);
                  ShippingLine.total := Str.toFixed shippingCost 2;
                  ShippingLine.total_tax := "0.00";
                  ShippingLine.taxes := [];
                  ShippingLine.tax_status :=
                    Setting.value
                      (Settings.tax_status (ShippingMethod.settings method));
                  ShippingLine.meta_data := [] |} ]
           else [])
        methods
  end.

Definition selectDefaultFlatRateMethod
    (methods : list ShippingMethod.t) (items : list CartItem.t)
  : option ShippingMethod.t :=
  match methods with
  | [] => None
  | _ =>
      match find (fun method =>
                    String.eqb (ShippingMethod.method_id method) "flat_rate"
                    && ShippingMethod.enabled method) methods with
      | Some flatRateMethod => Some flatRateMethod
      | None => find ShippingMethod.enabled methods
      end
  end.

(** ** Sums over the cart and over the shipping lines *)

Definition subtotalOf (items : list CartItem.t) : JS.number :=
  fold_left (fun s it => s + CartItem.price it * CartItem.quantity it)
    items JS.zero.

Definition shippingTotalOf (shipping : list ShippingLine.t) : JS.number :=
  fold_left
    (fun total line => total + toNum (VString (ShippingLine.total line)) JS.zero)
    shipping JS.zero.

(** [updateTaxCalculation(items, shipping, rates)]: the value that it
    passes to [setTaxCalculation], unless the tax calculator throws. *)
Definition updateTaxCalculation
    (items : list CartItem.t) (shipping : list ShippingLine.t)
    (rates : list TaxRate.t) : Outcome (option TaxCalculation.t) :=
  let subtotal := subtotalOf items in
  let shippingTotal := shippingTotalOf shipping in
  if (0 <? List.length rates)%nat then
    match calculateTaxes items subtotal shippingTotal rates with
    | Returns taxCalc => Returns (Some taxCalc)
    | Throws => Throws
    end
  else Returns None.

(** ** The two effects that follow a render

    The body of each effect, as the state that it leaves.  The tax effect
    has no handler: when the tax calculator throws, so does the effect, and
    the screen is torn down. *)

Definition taxEffect (st : t) : Outcome t :=
  if ((0 <? List.length (cartItems st)) || (0 <? List.length (taxRates st))
      || (0 <? List.length (shippingLines st)))%nat
  then
    match
      updateTaxCalculation (cartItems st) (shippingLines st) (taxRates st)
    with
    | Returns taxCalc => Returns (setTaxCalculation taxCalc st)
    | Throws => Throws
    end
  else Returns st.

Definition paymentEffect (st : t) : t :=
  if ((0 <? List.length (cartItems st))
      && (0 <? List.length (paymentGateways st)))%nat
  then
    setSelectedPaymentMethod
      (determinePaymentMethod (cartItems st) (paymentGateways st)) st
  else st.

(** The two effects in the order of the source, as they run after a
    render in which the cart items have changed: the cart items are a
    dependency of both. *)
Definition effects (st : t) : Outcome t :=
  match taxEffect st with
  | Returns st' => Returns (paymentEffect st')
  | Throws => Throws
  end.

(** ** Derived totals *)

Definition subtotal (st : t) : JS.number := subtotalOf (cartItems st).


Definition couponDiscount (st : t) : JS.number :=
  calcCouponDiscount (subtotal st) (appliedCoupons st).

Definition shippingTotal (st : t) : JS.number :=
  shippingTotalOf (shippingLines st).

Definition itemTaxTotal (st : t) : JS.number :=
  match taxCalculation st with
  | Some tc => JS.or (TaxCalculation.tax_total tc) JS.zero
  | None => JS.zero
  end.

Definition shippingTaxTotal (st : t) : JS.number :=
  match taxCalculation st with
  | Some tc => JS.or (TaxCalculation.shipping_tax_total tc) JS.zero
  | None => JS.zero
  end.

Definition totalTax (st : t) : JS.number :=
  itemTaxTotal st + shippingTaxTotal st.

Definition gstBreakdown (st : t) : GST.t :=
  calculateGSTBreakdown (taxCalculation st).

Definition total (st : t) : JS.number :=
  subtotal st - couponDiscount st + shippingTotal st + totalTax st.

End Component.

Section Operations.
Context {A : JS.Arithmetic} {H : Host}.
Local Open Scope js_scope.
Import State.

(** ** [loadCart] *)

(** The cart item that the loop of [loadCart] builds from a product. *)
Definition itemOfProduct
    (productData : ProductData.t) (quantity : option JS.number) : CartItem.t :=
  {| CartItem.id := string_of_Z (ProductData.id productData);
     CartItem.name :=
       if String.eqb (ProductData.name productData) "" then "Unnamed"
       else ProductData.name productData;
     CartItem.price :=
       toNum (nullish (ProductData.sale_price productData)
                      (ProductData.price productData)) JS.zero;
     CartItem.originalPrice :=
       toNum (nullish (ProductData.regular_price productData)
                      (ProductData.price productData)) JS.zero;
     CartItem.size := ProductData.size productData;
     CartItem.color := ProductData.color productData;
     CartItem.image := ProductData.image productData;
     CartItem.quantity :=
       match quantity with
       | Some q => JS.or q JS.one
       | None => JS.one
       end;
     CartItem.tax_class :=
       Some (if String.eqb (ProductData.tax_class productData) "" then "standard"
             else ProductData.tax_class productData);
     CartItem.tax_status :=
       Some (if String.eqb (ProductData.tax_status productData) "" then "taxable"
             else ProductData.tax_status productData);
     CartItem.payment_methods := Some ["cod"; "razorpay"] |}.

(** The loop over [cartMeta]: a product without data is skipped, and a
    call that throws ends the loop. *)
Fixpoint fetchItems
    (getProductDetail : Z -> Outcome (option ProductData.t))
    (cartMeta : list CartEntry.t) (fetched : list CartItem.t)
  : Outcome (list CartItem.t) :=
  match cartMeta with
  | [] => Returns fetched
  | entry :: rest =>
      match getProductDetail (CartEntry.id entry) with
      | Throws => Throws
      | Returns None => fetchItems getProductDetail rest fetched
      | Returns (Some productData) =>
          fetchItems getProductDetail rest
            (fetched ++ [itemOfProduct productData (CartEntry.quantity entry)])
      end
  end.

(** The [catch] and [finally] blocks of [loadCart]. *)
Definition loadCartFailed (st : t) : t :=
  setLoading false
    (setCartItems [] (setErrorText "Failed to load cart. Please try again." st)).

(** [loadCart], as the state in which it leaves the component.  [session]
    is the identifier of the user in the session, when there is one.  A
    throw of the tax calculator is caught like one of an awaited call, with
    the updates of the state that precede it already made. *)
Definition loadCart
    (session : Outcome (option Z))
    (taxes : Fetched (list TaxRate.t))
    (methodsResponse : Fetched (list ShippingMethod.t))
    (gatewaysResponse : Fetched (list PaymentGateway.t))
    (getCustomerById : Outcome Customer.t)
    (getProductDetail : Z -> Outcome (option ProductData.t))
    (st : t) : t :=
  let st := setErrorText "" (setLoading true st) in
  match session with
  | Throws => loadCartFailed st
  | Returns None | Returns (Some 0%Z) =>
      setLoading false
        (setCartItems []
           (setErrorText "Please log in to view your cart." st))
  | Returns (Some uid) =>
      let st := setUserId (Some uid) st in
      let rates := loadTaxRates taxes in
      let methods := loadShippingMethods methodsResponse in
      let gateways := loadPaymentGateways gatewaysResponse in
      let st :=
        setPaymentGateways gateways
          (setShippingMethods methods (setTaxRates rates st)) in
      match getCustomerById with
      | Throws => loadCartFailed st
      | Returns customer =>
          let st := setAppliedCoupons (Customer.applied_coupons customer) st in
          match fetchItems getProductDetail (Customer.cart customer) [] with
          | Throws => loadCartFailed st
          | Returns fetched =>
              let st := setCartItems fetched st in
              let '(st, taxCalc) :=
                if ((0 <? List.length methods) && (0 <? List.length fetched))%nat
                then
                  let defaultMethod :=
                    selectDefaultFlatRateMethod methods fetched in
                  let st := setSelectedShippingMethod defaultMethod st in
                  let shippingData :=
                    match defaultMethod with
                    | Some m => calculateShippingLines [m] fetched
                    | None => []
                    end in
                  let st := setShippingLines shippingData st in
                  (st, updateTaxCalculation fetched shippingData rates)
                else (st, updateTaxCalculation fetched [] rates) in
              match taxCalc with
              | Throws => loadCartFailed st
              | Returns taxCalc =>
                  let st := setTaxCalculation taxCalc st in
                  let paymentMethod := determinePaymentMethod fetched gateways in
                  setLoading false (setSelectedPaymentMethod paymentMethod st)
              end
          end
      end
  end.

(** ** Changes of the shipping method and of the cart *)

(** [updateShippingMethod(method)], as the state that it leaves; when the
    tax calculator throws, the function ends there, and nothing is made of
    the promise that it returns. *)
Definition updateShippingMethod (method : ShippingMethod.t) (st : t) : t :=
  let st' := setSelectedShippingMethod (Some method) st in
  let shippingData := calculateShippingLines [method] (cartItems st) in
  let st' := setShippingLines shippingData st' in
  match updateTaxCalculation (cartItems st) shippingData (taxRates st) with
  | Returns taxCalc => setTaxCalculation taxCalc st'
  | Throws => st'
  end.

(** [updateCartMeta(items)], called in the render of which the state is
    [st0]; [st] is the state with the updates queued before the call, and
    [updateCustomerById] what the remote update comes to.  The handler
    catches a throw of the tax calculator like one of the remote update. *)
Definition updateCartMeta
    (st0 : t) (items : list CartItem.t) (updateCustomerById : Outcome unit)
    (st : t) : t :=
  match userId st0 with
  | None | Some 0%Z => st
  | Some _ =>
      match updateCustomerById with
      | Throws => st
      | Returns _ =>
          let '(st, taxCalc) :=
            if (0 <? List.length (shippingMethods st0))%nat then
              let defaultMethod :=
                selectDefaultFlatRateMethod (shippingMethods st0) items in
              let st := setSelectedShippingMethod defaultMethod st in
              let shippingData :=
                match defaultMethod with
                | Some m => calculateShippingLines [m] items
                | None => []
                end in
              let st := setShippingLines shippingData st in
              (st, updateTaxCalculation items shippingData (taxRates st0))
            else (st, updateTaxCalculation items [] (taxRates st0)) in
          match taxCalc with
          | Throws => st
          | Returns taxCalc =>
              let st := setTaxCalculation taxCalc st in
              let paymentMethod :=
                determinePaymentMethod items (paymentGateways st0) in
              setSelectedPaymentMethod paymentMethod st
          end
      end
  end.

Definition updateQuantity
    (id : string) (qty : JS.number) (updateCustomerById : Outcome unit)
    (st : t) : t :=
  if qty <? JS.one then st
  else
    let updated :=
      map (fun it =>
             if String.eqb (CartItem.id it) id then
               {| CartItem.id := CartItem.id it;
                  CartItem.name := CartItem.name it;
                  CartItem.price := CartItem.price it;
                  CartItem.originalPrice := CartItem.originalPrice it;
                  CartItem.size := CartItem.size it;
                  CartItem.color := CartItem.color it;
                  CartItem.image := CartItem.image it;
                  CartItem.quantity := qty;
                  CartItem.tax_class := CartItem.tax_class it;
                  CartItem.tax_status := CartItem.tax_status it;
                  CartItem.payment_methods := CartItem.payment_methods it |}
             else it)
          (cartItems st) in
    updateCartMeta st updated updateCustomerById (setCartItems updated st).

Definition removeItem
    (id : string) (updateCustomerById : Outcome unit) (st : t) : t :=
  let updated :=
    filter (fun it => negb (String.eqb (CartItem.id it) id)) (cartItems st) in
  updateCartMeta st updated updateCustomerById (setCartItems updated st).

(** The handlers of the two quantity buttons of an item of the list. *)
Definition onPressDecrease
    (item : CartItem.t) (updateCustomerById : Outcome unit) (st : t) : t :=
  updateQuantity (CartItem.id item) (CartItem.quantity item - JS.one)
    updateCustomerById st.

Definition onPressIncrease
    (item : CartItem.t) (updateCustomerById : Outcome unit) (st : t) : t :=
  updateQuantity (CartItem.id item) (CartItem.quantity item + JS.one)
    updateCustomerById st.

(** [removeCoupon(code)]; [remote] is what the reading and the writing of
    the customer record come to. *)
Definition removeCoupon (code : string) (remote : Outcome unit) (st : t) : t :=
  match userId st with
  | None | Some 0%Z => st
  | Some _ =>
      let newList :=
        filter (fun c => negb (String.eqb (AppliedCouponMeta.code c) code))
          (appliedCoupons st) in
      match remote with
      | Throws => st
      | Returns _ => setAppliedCoupons newList st
      end
  end.

End Operations.

(* ================================================================== *)
(** * Helpers of the product cards *)

Module Cards.
Section Cards.
Context {A : JS.Arithmetic}.

(** [Math.round(x)]: the nearest integer, the larger one of two. *)
Definition round (x : JS.number) : JS.number :=
  match x with
  | JS.Fin q => JS.ofZ (Qfloor (q + Q2Qc (1 # 2))%Qc)
  | _ => x
  end.

(** [x > y]. *)
Definition gtb (x y : JS.number) : bool := JS.ltb y x.

(** [pctDiscount(regular, sale)]; [None] stands for [undefined]. *)
Definition pctDiscount (regular sale : JS.number) : option JS.number :=
  if gtb regular JS.zero && gtb sale JS.zero && gtb regular sale then
    let pct :=
      round (JS.mul (JS.div (JS.sub regular sale) regular) JS.hundred) in
    if JS.isFinite pct && gtb pct JS.zero then Some pct else None
  else None.

End Cards.
End Cards.

(* ================================================================== *)
(** * A host for arithmetic formulas

    An instance of [Host] on which the definitions can be run: [eval]
    understands the arithmetic expressions that a shipping cost is written
    in (decimal literals, [+ - * /], parentheses) and throws on everything
    else; a number is printed in fixed notation with as many decimals as
    it has (at most 20). *)

Module ArithmeticHost.

Inductive Mode : Type :=
| Sum
| SumTail (acc : JS.number)
| Term
| TermTail (acc : JS.number)
| Factor.

Local Open Scope js_scope.

Section Evaluation.
Context {A : JS.Arithmetic}.

Fixpoint parse (fuel : nat) (mode : Mode) (s : string)
  : option (JS.number * string) :=
  match fuel with
  | O => None
  | S k =>
      match mode with
      | Sum =>
          match parse k Term s with
          | Some (v, r) => parse k (SumTail v) r
          | None => None
          end
      | SumTail acc =>
          match Str.trimStart s with
          | String "+" r =>
              match parse k Term r with
              | Some (v, r') => parse k (SumTail (acc + v)) r'
              | None => None
              end
          | String "-" r =>
              match parse k Term r with
              | Some (v, r') => parse k (SumTail (acc - v)) r'
              | None => None
              end
          | r => Some (acc, r)
          end
      | Term =>
          match parse k Factor s with
          | Some (v, r) => parse k (TermTail v) r
          | None => None
          end
      | TermTail acc =>
          match Str.trimStart s with
          | String "*" r =>
              match parse k Factor r with
              | Some (v, r') => parse k (TermTail (acc * v)) r'
              | None => None
              end
          | String "/" r =>
              match parse k Factor r with
              | Some (v, r') => parse k (TermTail (acc / v)) r'
              | None => None
              end
          | r => Some (acc, r)
          end
      | Factor =>
          match Str.trimStart s with
          | String "(" r =>
              match parse k Sum r with
              | Some (v, r') =>
                  match Str.trimStart r' with
                  | String ")" r'' => Some (v, r'')
                  | _ => None
                  end
              | None => None
              end
          | String "-" r =>
              match parse k Factor r with
              | Some (v, r') => Some (JS.neg v, r')
              | None => None
              end
          | r => Str.strUnsignedDecimalLiteral r
          end
      end
  end.

Definition evaluate (s : string) : option JS.number :=
  match parse (4 * String.length s + 4) Sum s with
  | Some (v, r) =>
      match Str.trimStart r with
      | EmptyString => Some v
      | _ => None
      end
  | None => None
  end.

(** The least number of decimals, up to [fuel] more than [f], with which
    [q] is printed exactly. *)
Fixpoint decimalsOf (q : Q) (f fuel : nat) : nat :=
  match fuel with
  | O => f
  | S k =>
      if ((Qnum q * 10 ^ Z.of_nat f) mod Z.pos (Qden q) =? 0)%Z then f
      else decimalsOf q (S f) k
  end.

Definition print (x : JS.number) : string :=
  match x with
  | JS.Fin q => Str.toFixed x (decimalsOf q 0 20)
  | _ => Str.toFixed x 0
  end.

Definition host : Host := {| eval := evaluate; numberToString := print |}.

End Evaluation.
End ArithmeticHost.

(* ================================================================== *)
(** * Sample data *)

Module Sample.
Section Sample.
Context {A : JS.Arithmetic}.

Definition num (s : string) : JS.number := Str.parseFloat s.

Definition item (id : string) (price quantity : string)
    (tax_class : option string) (payment_methods : option (list string))
  : CartItem.t :=
  {| CartItem.id := id;
     CartItem.name := "Item " ++ id;
     CartItem.price := num price;
     CartItem.originalPrice := num price;
     CartItem.size := "N/A";
     CartItem.color := "N/A";
     CartItem.image := "https://via.placeholder.com/100";
     CartItem.quantity := num quantity;
     CartItem.tax_class := tax_class;
     CartItem.tax_status := Some "taxable";
     CartItem.payment_methods := payment_methods |}.

Definition taxRate (id : Z) (rate class : string) (shipping : bool) : TaxRate.t :=
  {| TaxRate.id := id;
     TaxRate.country := "IN";
     TaxRate.state := "";
     TaxRate.postcode := "";
     TaxRate.city := "";
     TaxRate.rate := rate;
     TaxRate.name := "GST";
     TaxRate.priority := 1;
     TaxRate.compound := false;
     TaxRate.shipping := shipping;
     TaxRate.order := 0;
     TaxRate.class := class;
     TaxRate.postcodes := [];
     TaxRate.cities := [] |}.

Definition setting (id value : string) : Setting.t :=
  {| Setting.id := id;
     Setting.label := id;
     Setting.description := "";
     Setting.type := "text";
     Setting.value := value;
     Setting.default := "";
     Setting.tip := "";
     Setting.placeholder := "" |}.

Definition shippingMethod (id : Z) (method_id cost : string) (enabled : bool)
  : ShippingMethod.t :=
  {| ShippingMethod.id := id;
     ShippingMethod.instance_id := id;
     ShippingMethod.title := "Flat rate";
     ShippingMethod.order := 1;
     ShippingMethod.enabled := enabled;
     ShippingMethod.method_id := method_id;
     ShippingMethod.method_title := "Flat rate";
     ShippingMethod.method_description := "";
     ShippingMethod.settings :=
       {| Settings.title := setting "title" "Flat rate";
          Settings.tax_status := setting "tax_status" "taxable";
          Settings.cost := setting "cost" cost |} |}.

Definition gateway (id : string) (enabled : bool) : PaymentGateway.t :=
  {| PaymentGateway.id := id;
     PaymentGateway.title := id;
     PaymentGateway.description := "";
     PaymentGateway.order := 0;
     PaymentGateway.enabled := enabled;
     PaymentGateway.method_title := id;
     PaymentGateway.method_description := "";
     PaymentGateway.method_supports := ["products"] |}.

Definition product (id : Z) (price : string) : ProductData.t :=
  {| ProductData.id := id;
     ProductData.name := "Product";
     ProductData.sale_price := VUndefined;
     ProductData.price := VString price;
     ProductData.regular_price := VString price;
     ProductData.color := "N/A";
     ProductData.size := "N/A";
     ProductData.image := "https://via.placeholder.com/100";
     ProductData.tax_class := "";
     ProductData.tax_status := "taxable" |}.

(** One item of 1000, the 18% rate that also applies to shipping. *)
Definition cart1000 : list CartItem.t := [item "1" "1000" "1" None None].
Definition gst18 : list TaxRate.t := [taxRate 7 "18.0000" "" true].

(** A customer with one product of 1000 in the cart, a flat rate of 50 and
    the cash-on-delivery gateway. *)
Definition customer : Customer.t :=
  {| Customer.cart :=
       [ {| CartEntry.id := 1; CartEntry.quantity := Some JS.one |} ];
     Customer.applied_coupons := [] |}.

Definition getProductDetail (id : Z) : Outcome (option ProductData.t) :=
  Returns (Some (product id "1000")).

Definition flatRate50 : list ShippingMethod.t :=
  [shippingMethod 1 "flat_rate" "50" true].

Definition gateways : list PaymentGateway.t := [gateway "cod" true].

(** The state after [loadCart] with the answer [methods] to the request
    for the shipping methods, all other requests succeeding, and after the
    effects of the render that follows. *)
Definition load (methods : Fetched (list ShippingMethod.t)) (st : State.t)
  : Outcome State.t :=
  effects (H := ArithmeticHost.host)
    (loadCart (H := ArithmeticHost.host)
       (Returns (Some 42%Z)) (FetchResponse true gst18) methods
       (FetchResponse true gateways) (Returns customer) getProductDetail st).

(** The first load of the screen, every request succeeding. *)
Definition firstLoad : Outcome State.t :=
  load (FetchResponse true flatRate50) State.initial.

(** The screen comes back into focus and [loadCart] runs again; this time
    the request for the shipping methods fails. *)
Definition reload : Outcome State.t :=
  match firstLoad with
  | Returns st => load FetchThrows st
  | Throws => Throws
  end.

End Sample.
End Sample.

(* ================================================================== *)
(** * Vocabulary of the statements *)

Section Vocabulary.
Context {A : JS.Arithmetic}.

(** Sum of a list of numbers. *)
Fixpoint sum (l : list JS.number) : JS.number :=
  match l with
  | [] => JS.zero
  | x :: r => JS.add x (sum r)
  end.

(** The numbers of a list added to [0] one after the other, from the
    left, as [reduce] and the running totals of the loops add them. *)
Definition addUp (l : list JS.number) : JS.number :=
  fold_left JS.add l JS.zero.


(** Every quantity of the cart is at least 1. *)
Definition quantitiesAtLeastOne (items : list CartItem.t) : Prop :=
  Forall (fun it => JS.geb (CartItem.quantity it) JS.one = true) items.

(** The item supports cash on delivery, or declares no restriction. *)
Definition codCapable (item : CartItem.t) : Prop :=
  match CartItem.payment_methods item with
  | Some l => In "cod" l \/ l = []
  | None => True
  end.

(** [g] is an enabled gateway of the list with identifier [gid]. *)
Definition enabledGateway
    (gid : string) (gateways : list PaymentGateway.t) (g : PaymentGateway.t)
  : Prop :=
  In g gateways /\ PaymentGateway.enabled g = true /\ PaymentGateway.id g = gid.

Definition codMethod (g : PaymentGateway.t) : PaymentMethod.t :=
  {| PaymentMethod.method := "cod";
     PaymentMethod.gateway := g;
     PaymentMethod.description :=
       "Cash on delivery - Pay with cash upon delivery." |}.

Definition onlineMethod (g : PaymentGateway.t) : PaymentMethod.t :=
  {| PaymentMethod.method := "razorpay";
     PaymentMethod.gateway := g;
     PaymentMethod.description :=
       "Credit Card/Debit Card/NetBanking - Secure online payment" |}.

(** The items of a tax class, in the order of the cart. *)
Definition classItems (taxClass : string) (items : list CartItem.t)
  : list CartItem.t :=
  filter (fun it => String.eqb (taxClassOf it) taxClass) items.

(** The group that [itemsByTaxClass] holds for a tax class. *)
Definition classGroup (items : list CartItem.t) (taxClass : string)
  : ClassGroup.t :=
  {| ClassGroup.subtotal := subtotalOf (classItems taxClass items);
     ClassGroup.items := classItems taxClass items |}.

(** Some item of the cart has a tax class that is the name of a property
    of [Object.prototype]. *)
Definition inheritedClass (items : list CartItem.t) : bool :=
  existsb (fun it => Obj.inherited (taxClassOf it)) items.

(** The tax classes of the cart, as the cart object enumerates them (none
    when the grouping throws). *)
Definition classes (items : list CartItem.t) : list string :=
  match groupByTaxClass items with
  | Returns itemsByTaxClass => Obj.keys itemsByTaxClass
  | Throws => []
  end.

(** The cart object after the items [done] have been added to it. *)
Definition grouped (o : Obj.t ClassGroup.t) (done : list CartItem.t) : Prop :=
  NoDup (Obj.keys o)
  /\ (forall k, Obj.get o k = None <-> classItems k done = [])
  /\ (forall k g, Obj.get o k = Some g -> g = classGroup done k).

Section TaxVocabulary.
Context {H : Host}.

(** The pairs of a tax class of the cart and a tax rate that applies to
    it, the classes as the cart object enumerates them. *)
Definition taxPairs (items : list CartItem.t) (taxRates : list TaxRate.t)
  : list (string * TaxRate.t) :=
  flat_map (fun c => map (pair c) (filter (rateApplies c) taxRates))
    (classes items).

(** Item tax of a pair: the subtotal of the class times rate / 100. *)
Definition itemTaxOf (items : list CartItem.t) (p : string * TaxRate.t)
  : JS.number :=
  JS.div
    (JS.mul (subtotalOf (classItems (fst p) items))
            (toNum (VString (TaxRate.rate (snd p))) JS.zero))
    JS.hundred.

(** Shipping tax of a pair: the shipping total times rate / 100 when the
    rate applies to shipping. *)
Definition shippingTaxOf (shippingTotal : JS.number) (p : string * TaxRate.t)
  : JS.number :=
  if TaxRate.shipping (snd p) then
    JS.div
      (JS.mul shippingTotal (toNum (VString (TaxRate.rate (snd p))) JS.zero))
      JS.hundred
  else JS.zero.

(** The tax line of a pair. *)
Definition taxLineOf
    (items : list CartItem.t) (shippingTotal : JS.number)
    (p : string * TaxRate.t) : TaxLine.t :=
  {| TaxLine.id := TaxRate.id (snd p);
     TaxLine.rate_code := "TAX-" ++ string_of_Z (TaxRate.id (snd p));
     TaxLine.rate_id := TaxRate.id (snd p);
     TaxLine.label := TaxRate.name (snd p);
     TaxLine.compound := TaxRate.compound (snd p);
     TaxLine.tax_total := itemTaxOf items p;
     TaxLine.shipping_tax_total := shippingTaxOf shippingTotal p;
     TaxLine.rate_percent := toNum (VString (TaxRate.rate (snd p))) JS.zero;
     TaxLine.tax_class := Some (fst p) |}.

End TaxVocabulary.

(** A tax calculation to which further tax lines are added, one after the
    other. *)
Definition extend (acc : TaxCalculation.t) (lines : list TaxLine.t)
  : TaxCalculation.t :=
  {| TaxCalculation.tax_total :=
       fold_left JS.add (map TaxLine.tax_total lines)
         (TaxCalculation.tax_total acc);
     TaxCalculation.shipping_tax_total :=
       fold_left JS.add (map TaxLine.shipping_tax_total lines)
         (TaxCalculation.shipping_tax_total acc);
     TaxCalculation.tax_lines := TaxCalculation.tax_lines acc ++ lines |}.

(** The tax calculation of the pairs: the item taxes and the shipping
    taxes added up in the order of the pairs, and one tax line for each. *)
Definition taxesOf `{Host}
    (items : list CartItem.t) (shippingTotal : JS.number)
    (taxRates : list TaxRate.t) : TaxCalculation.t :=
  let pairs := taxPairs items taxRates in
  {| TaxCalculation.tax_total := addUp (map (itemTaxOf items) pairs);
     TaxCalculation.shipping_tax_total :=
       addUp (map (shippingTaxOf shippingTotal) pairs);
     TaxCalculation.tax_lines := map (taxLineOf items shippingTotal) pairs |}.

(** The multiple of 1/100 nearest to [x], the one away from zero of two,
    as a number of the arithmetic; the special values are left as they
    are. *)
Definition round2 (x : JS.number) : JS.number :=
  match x with
  | JS.Fin q =>
      let r := JS.round (Q2Qc (Z.of_N (Str.roundScaled q 2) # 100)) in
      match JS.sgn q with
      | Lt => JS.neg r
      | _ => r
      end
  | _ => x
  end.

(** Each of the two accumulators of the GST breakdown after the tax
    lines: from [0], half of the item tax and then half of the shipping
    tax of each line are added, line after line. *)
Definition halves (lines : list TaxLine.t) : JS.number :=
  fold_left
    (fun acc taxLine =>
       JS.add (JS.add acc (JS.div (TaxLine.tax_total taxLine) JS.two))
              (JS.div (TaxLine.shipping_tax_total taxLine) JS.two))
    lines JS.zero.

(** A tax calculation of one tax line. *)
Definition oneLine (tax_total shipping_tax_total : JS.number)
  : TaxCalculation.t :=
  {| TaxCalculation.tax_total := tax_total;
     TaxCalculation.shipping_tax_total := shipping_tax_total;
     TaxCalculation.tax_lines :=
       [ {| TaxLine.id := 1;
            TaxLine.rate_code := "TAX-1";
            TaxLine.rate_id := 1;
            TaxLine.label := "GST";
            TaxLine.compound := false;
            TaxLine.tax_total := tax_total;
            TaxLine.shipping_tax_total := shipping_tax_total;
            TaxLine.rate_percent := JS.ofZ 18;
            TaxLine.tax_class := Some "standard" |} ] |}.

(** What a shipping line is worth in the shipping total: the cost of the
    method rounded to two decimals, and nothing when that is not a finite
    number. *)
Definition lineAmount `{Host} (items : list CartItem.t) (method : ShippingMethod.t)
  : JS.number :=
  let amount := round2 (calculateShippingCost method items) in
  if JS.isFinite amount then amount else JS.zero.

(** The cart items that the loop of [loadCart] builds for an entry of the
    cart meta value: one when the product has data, none otherwise. *)
Definition itemsOfEntry `{Host}
    (getProductDetail : Z -> Outcome (option ProductData.t))
    (entry : CartEntry.t) : list CartItem.t :=
  match getProductDetail (CartEntry.id entry) with
  | Returns (Some productData) =>
      [itemOfProduct productData (CartEntry.quantity entry)]
  | _ => []
  end.

(** The class of the cart to which a tax rate applies: its own class, or
    [standard] for the empty class. *)
Definition classOfRate (rate : TaxRate.t) : string :=
  if String.eqb (TaxRate.class rate) "" then "standard" else TaxRate.class rate.




(** The states that the screen can show.  Each rule is one batch of updates
    of the source, applied to the state of the moment: a whole [loadCart];
    a press on a shipping method; [updateCartMeta] called in a render [st0]
    with a cart [items]; the tax effect; and any other batch, none of which
    writes the selected shipping method, the shipping lines or the tax
    calculation (the updates of [loadCart] before a request has answered,
    the new cart of [updateQuantity] and [removeItem], the removal of a
    coupon, the payment effect). *)
Inductive reachable `{Host} : State.t -> Prop :=
| reachable_initial : reachable State.initial
| reachable_loadCart session taxes methods gateways customer product st :
    reachable st ->
    reachable (loadCart session taxes methods gateways customer product st)
| reachable_updateShippingMethod method st :
    reachable st -> reachable (updateShippingMethod method st)
| reachable_updateCartMeta st0 items remote st :
    reachable st -> reachable (updateCartMeta st0 items remote st)
| reachable_taxEffect st st' :
    reachable st -> taxEffect st = Returns st' -> reachable st'
| reachable_other st st' :
    reachable st ->
    State.selectedShippingMethod st' = State.selectedShippingMethod st ->
    State.shippingLines st' = State.shippingLines st ->
    State.taxCalculation st' = State.taxCalculation st ->
    reachable st'.

End Vocabulary.

(* ================================================================== *)
(** * Facts about numbers *)

Module JSFacts.
#[local] Existing Instance JS.Exact.
Import JS.
Local Open Scope js_scope.

Lemma Fin_inj (a b : Qc) : (a == b)%Q -> Fin a = Fin b.
Proof. intros E. f_equal. now apply Qc_is_canon. Qed.

(** The boolean equality decides the equality of numbers. *)
Lemma eqb_eq x y : eqb x y = true -> x = y.
Proof.
  destruct x, y; simpl; try discriminate; try reflexivity.
  intros E. apply Fin_inj. now apply Qeq_bool_iff.
Qed.

Lemma eqb_false x y : eqb x y = false -> x <> y.
Proof.
  intros E A. subst y. destruct x; simpl in E; try discriminate.
  assert (T : Qeq_bool q q = true) by (apply Qeq_bool_iff; reflexivity).
  congruence.
Qed.

Lemma zero_Fin : zero = Fin 0%Qc.
Proof. apply eqb_eq. reflexivity. Qed.


Lemma add_comm x y : x + y = y + x.
Proof. destruct x, y; simpl; try reflexivity. f_equal. ring. Qed.

Lemma add_assoc x y z : x + (y + z) = (x + y) + z.
Proof. destruct x, y, z; simpl; try reflexivity. f_equal. ring. Qed.

Lemma add_zero_r x : x + zero = x.
Proof. rewrite zero_Fin. destruct x; simpl; try reflexivity. f_equal. ring. Qed.

Lemma add_zero_l x : zero + x = x.
Proof. rewrite add_comm. apply add_zero_r. Qed.

Lemma isFinite_add x y :
  isFinite x = true -> isFinite y = true -> isFinite (x + y) = true.
Proof. destruct x, y; simpl; congruence. Qed.

Lemma isFinite_mul x y :
  isFinite x = true -> isFinite y = true -> isFinite (x * y) = true.
Proof. destruct x, y; simpl; congruence. Qed.

Lemma isFinite_div_hundred x : isFinite x = true -> isFinite (x / hundred) = true.
Proof. destruct x; simpl; congruence. Qed.

Lemma isFinite_zero : isFinite zero = true.
Proof. reflexivity. Qed.


Lemma isFinite_not_NaN x : isFinite x = true -> x <> NaN.
Proof. destruct x; simpl; congruence. Qed.


Lemma sum_app l1 l2 : sum (l1 ++ l2) = sum l1 + sum l2.
Proof.
  induction l1 as [|x l1 IH]; cbn [app sum].
  - now rewrite add_zero_l.
  - rewrite IH. apply add_assoc.
Qed.


Lemma isFinite_sum l : Forall (fun x => isFinite x = true) l -> isFinite (sum l) = true.
Proof.
  induction 1 as [|x l Hx _ IH]; cbn [sum].
  - reflexivity.
  - now apply isFinite_add.
Qed.

End JSFacts.

(** Equality and difference of two closed numbers, by evaluation. *)
Ltac js_eq := apply JSFacts.eqb_eq; vm_compute; reflexivity.
Ltac js_neq := apply JSFacts.eqb_false; vm_compute; reflexivity.

(* ================================================================== *)
(** * Coupons *)

Section Coupons.
#[local] Existing Instance JS.Exact.
Import JS JSFacts.
Local Open Scope js_scope.



End Coupons.

(* ================================================================== *)
(** * [toNum] *)

Section ToNum.
Context {arith : JS.Arithmetic} `{Host}.
Import JS JSFacts.
Local Open Scope js_scope.

Lemma toNum_finite v : isFinite (toNum v zero) = true.
Proof.
  unfold toNum.
  destruct (isFinite (Str.parseFloat (ToString (nullish v (VString ""))))) eqn:E.
  - exact E.
  - reflexivity.
Qed.

Lemma calculateShippingCost_fixed (m : ShippingMethod.t) (items : list CartItem.t) :
  let cost := Setting.value (Settings.cost (ShippingMethod.settings m)) in
  Str.includes cost "[qty]" = false ->
  Str.includes cost "[cost]" = false ->
  calculateShippingCost m items = toNum (VString cost) zero.
Proof.
  intros cost Hq Hc. unfold calculateShippingCost. fold cost.
  now rewrite Hq, Hc.
Qed.

End ToNum.

Section ToNumTotal.
#[local] Existing Instance JS.Exact.
Context `{Host}.
Import JS JSFacts.
Local Open Scope js_scope.



End ToNumTotal.

(* ================================================================== *)
(** * Payment method *)

Section Payment.
Context {arith : JS.Arithmetic}.

Lemma supportsCOD_spec item : supportsCOD item = true <-> codCapable item.
Proof.
  unfold supportsCOD, codCapable.
  destruct (CartItem.payment_methods item) as [l|]; [|tauto].
  rewrite orb_true_iff, existsb_exists, Nat.eqb_eq. split.
  - intros [[x [Hin E]]|E].
    + left. apply String.eqb_eq in E. now subst x.
    + right. now destruct l.
  - intros [Hin|E].
    + left. exists "cod". split; [assumption|apply String.eqb_refl].
    + right. now subst l.
Qed.

Lemma allSupportCOD_spec items :
  forallb supportsCOD items = true <-> Forall codCapable items.
Proof.
  rewrite forallb_forall, Forall_forall.
  split; intros A x Hx; apply supportsCOD_spec; auto.
Qed.

Lemma find_enabled_some gid gateways g :
  find (fun g => String.eqb (PaymentGateway.id g) gid)
       (filter PaymentGateway.enabled gateways) = Some g ->
  enabledGateway gid gateways g.
Proof.
  intros F. apply find_some in F. destruct F as [Hin E].
  apply filter_In in Hin. destruct Hin as [Hin En].
  apply String.eqb_eq in E. now repeat split.
Qed.

Lemma find_enabled_none gid gateways :
  find (fun g => String.eqb (PaymentGateway.id g) gid)
       (filter PaymentGateway.enabled gateways) = None ->
  ~ exists g, enabledGateway gid gateways g.
Proof.
  intros F [g [Hin [En E]]].
  assert (Hf : In g (filter PaymentGateway.enabled gateways))
    by (apply filter_In; now split).
  pose proof (find_none _ _ F g Hf) as N. simpl in N.
  subst gid. rewrite String.eqb_refl in N. discriminate.
Qed.

Lemma determinePaymentMethod_cases
    (cartItems : list CartItem.t) (paymentGateways : list PaymentGateway.t) :
  let allCOD := Forall codCapable cartItems in
  let hasCOD := exists g, enabledGateway "cod" paymentGateways g in
  let hasOnline := exists g, enabledGateway "razorpay" paymentGateways g in
  let selected := determinePaymentMethod cartItems paymentGateways in
  (allCOD /\ hasCOD ->
     exists g, enabledGateway "cod" paymentGateways g
               /\ selected = Some (codMethod g))
  /\ (~ (allCOD /\ hasCOD) -> hasOnline ->
        exists g, enabledGateway "razorpay" paymentGateways g
                  /\ selected = Some (onlineMethod g))
  /\ (~ (allCOD /\ hasCOD) -> ~ hasOnline -> hasCOD ->
        exists g, enabledGateway "cod" paymentGateways g
                  /\ selected = Some (codMethod g))
  /\ (~ hasCOD -> ~ hasOnline -> selected = None).
Proof.
  intros allCOD hasCOD hasOnline selected.
  unfold selected, determinePaymentMethod.
  pose proof (allSupportCOD_spec cartItems) as HA.
  pose proof (@find_enabled_some "cod" paymentGateways) as CS.
  pose proof (@find_enabled_none "cod" paymentGateways) as CN.
  pose proof (@find_enabled_some "razorpay" paymentGateways) as RS.
  pose proof (@find_enabled_none "razorpay" paymentGateways) as RN.
  destruct (find (fun g => String.eqb (PaymentGateway.id g) "cod")
              (filter PaymentGateway.enabled paymentGateways)) as [cod|];
  destruct (find (fun g => String.eqb (PaymentGateway.id g) "razorpay")
              (filter PaymentGateway.enabled paymentGateways)) as [rz|];
  destruct (forallb supportsCOD cartItems) eqn:EA;
  repeat split; intros;
  try (exists cod; split; [now apply CS | reflexivity]);
  try (exists rz; split; [now apply RS | reflexivity]);
  try reflexivity;
  try (exfalso; now apply CN);
  try (exfalso; now apply RN);
  try (exfalso;
       match goal with
       | N : ~ (allCOD /\ hasCOD) |- _ =>
           apply N; split; [now apply HA | exists cod; now apply CS]
       | N : ~ allCOD |- _ => apply N; now apply HA
       | N : ~ hasCOD |- _ => apply N; exists cod; now apply CS
       | N : ~ hasOnline |- _ => apply N; exists rz; now apply RS
       end);
  try (exfalso;
       match goal with
       | A : allCOD /\ hasCOD |- _ =>
           destruct A as [A _]; apply HA in A; discriminate
       end).
Qed.

(** C3.  The payment method is chosen in this order: the enabled
    cash-on-delivery gateway when every item supports cash on delivery (or
    declares no restriction) and there is such a gateway; otherwise the
    enabled online gateway (the one with identifier [razorpay]) when there
    is one; otherwise the enabled cash-on-delivery gateway; otherwise
    nothing.  So a cart of items that support cash on delivery gets [cod]
    when that gateway is enabled, and a cart with an item that does not
    gets the online method when that gateway is enabled. *)
Theorem determinePaymentMethod_priority
    (cartItems : list CartItem.t) (paymentGateways : list PaymentGateway.t) :
  let allCOD := Forall codCapable cartItems in
  let hasCOD := exists g, enabledGateway "cod" paymentGateways g in
  let hasOnline := exists g, enabledGateway "razorpay" paymentGateways g in
  let selected := determinePaymentMethod cartItems paymentGateways in
  ((allCOD /\ hasCOD ->
      exists g, enabledGateway "cod" paymentGateways g
                /\ selected = Some (codMethod g))
   /\ (~ (allCOD /\ hasCOD) -> hasOnline ->
         exists g, enabledGateway "razorpay" paymentGateways g
                   /\ selected = Some (onlineMethod g))
   /\ (~ (allCOD /\ hasCOD) -> ~ hasOnline -> hasCOD ->
         exists g, enabledGateway "cod" paymentGateways g
                   /\ selected = Some (codMethod g))
   /\ (~ hasCOD -> ~ hasOnline -> selected = None))
  /\ (let both := [Sample.gateway "razorpay" true; Sample.gateway "cod" true] in
      determinePaymentMethod
        [Sample.item "1" "10" "1" None (Some ["cod"; "razorpay"])] both
      = Some (codMethod (Sample.gateway "cod" true))
      /\ determinePaymentMethod
           [Sample.item "1" "10" "1" None (Some ["razorpay"])] both
         = Some (onlineMethod (Sample.gateway "razorpay" true))).
Proof.
  intros allCOD hasCOD hasOnline selected. split.
  - apply determinePaymentMethod_cases.
  - split; reflexivity.
Qed.

End Payment.

(* ================================================================== *)
(** * Quantities *)

Section CartOfCartMeta.
Context {arith : JS.Arithmetic} `{Host}.
Import State.

(** [updateCartMeta] does not write the cart. *)
Lemma cartItems_updateCartMeta st0 items remote st :
  cartItems (updateCartMeta st0 items remote st) = cartItems st.
Proof.
  unfold updateCartMeta.
  destruct (userId st0) as [[| |]|]; try reflexivity;
    destruct remote; try reflexivity;
    destruct (0 <? List.length (shippingMethods st0))%nat;
    destruct (updateTaxCalculation _ _ _); reflexivity.
Qed.

End CartOfCartMeta.

Section Quantities.
#[local] Existing Instance JS.Exact.
Context `{Host}.
Import JS JSFacts State.
Local Open Scope js_scope.

Lemma not_below_one q : q <> NaN -> (q <? one) = false -> (q >=? one) = true.
Proof.
  destruct q; simpl; try congruence.
  destruct (_ ?= _)%Qc; congruence.
Qed.

Lemma at_least_one_minus q : (q >=? one) = true -> q - one <> NaN.
Proof. destruct q; simpl; congruence. Qed.

Lemma at_least_one_plus q : (q >=? one) = true -> q + one <> NaN.
Proof. destruct q; simpl; congruence. Qed.

Lemma updateQuantity_items id qty remote st :
  qty <> NaN ->
  quantitiesAtLeastOne (cartItems st) ->
  quantitiesAtLeastOne (cartItems (updateQuantity id qty remote st)).
Proof.
  intros N Q. unfold updateQuantity.
  destruct (qty <? one) eqn:L; [assumption|].
  rewrite cartItems_updateCartMeta. cbn [setCartItems cartItems].
  unfold quantitiesAtLeastOne in *. rewrite Forall_forall in *.
  intros it Hin. apply in_map_iff in Hin. destruct Hin as [it0 [E Hin]].
  destruct (String.eqb (CartItem.id it0) id); subst it.
  - cbn [CartItem.quantity]. now apply not_below_one.
  - now apply Q.
Qed.

(** C9.  When every quantity of the cart is at least 1, it still is after
    an update of a quantity (which does nothing when the requested quantity
    is below 1), after a press on one of the two quantity buttons of an
    item, and after the removal of an item. *)
Theorem quantities_stay_at_least_one (st : State.t) :
  quantitiesAtLeastOne (cartItems st) ->
  (forall id qty remote,
     qty <> NaN ->
     quantitiesAtLeastOne (cartItems (updateQuantity id qty remote st)))
  /\ (forall id qty remote,
        (qty <? one) = true -> updateQuantity id qty remote st = st)
  /\ (forall item remote,
        In item (cartItems st) ->
        quantitiesAtLeastOne (cartItems (onPressDecrease item remote st))
        /\ quantitiesAtLeastOne (cartItems (onPressIncrease item remote st)))
  /\ (forall id remote,
        quantitiesAtLeastOne (cartItems (removeItem id remote st))).
Proof.
  intros Q. split; [|split; [|split]].
  - intros id qty remote N. now apply updateQuantity_items.
  - intros id qty remote L. unfold updateQuantity. now rewrite L.
  - intros item remote Hin.
    assert (G : (CartItem.quantity item >=? one) = true).
    { unfold quantitiesAtLeastOne in Q. rewrite Forall_forall in Q. now apply Q. }
    split; apply updateQuantity_items; trivial.
    + now apply at_least_one_minus.
    + now apply at_least_one_plus.
  - intros id remote. unfold removeItem.
    rewrite cartItems_updateCartMeta. cbn [setCartItems cartItems].
    unfold quantitiesAtLeastOne in *. rewrite Forall_forall in *.
    intros it Hin. apply filter_In in Hin. now apply Q.
Qed.

End Quantities.

Section QuantitiesSample.
#[local] Existing Instance JS.Exact.
#[local] Existing Instance ArithmeticHost.host.

(** The invariant on a cart of one item of quantity 1, and what the theorem
    gives for a request of 3 and for a removal. *)
Lemma quantities_stay_at_least_one_witness :
  let st := State.setCartItems Sample.cart1000 State.initial in
  quantitiesAtLeastOne (State.cartItems st)
  /\ quantitiesAtLeastOne
       (State.cartItems (updateQuantity "1" (JS.ofZ 3) (Returns tt) st))
  /\ quantitiesAtLeastOne (State.cartItems (removeItem "1" (Returns tt) st)).
Proof.
  intros st.
  assert (Q : quantitiesAtLeastOne (State.cartItems st)).
  { repeat constructor. }
  split; [exact Q|].
  pose proof (quantities_stay_at_least_one st Q) as T.
  split.
  - apply (proj1 T). discriminate.
  - apply (proj2 (proj2 (proj2 T))).
Defined.

End QuantitiesSample.

(* ================================================================== *)
(** * Objects *)

Module ObjFacts.
Import Obj.

Section Facts.
#[local] Existing Instance JS.Exact.
Variable V : Type.
Implicit Types (o : Obj.t V) (k : string) (v : V).

Lemma get_None_keys o k : get o k = None <-> ~ In k (keys o).
Proof.
  induction o as [|[k1 v1] r IH]; simpl.
  - tauto.
  - destruct (String.eqb_spec k k1) as [E|N].
    + split; [discriminate|]. intros A. exfalso. apply A. now left.
    + rewrite IH. split.
      * intros A [B|B]; [now apply N|now apply A].
      * intros A B. apply A. now right.
Qed.

Lemma get_create o k v k' :
  get o k = None ->
  get (create o k v) k' = if String.eqb k' k then Some v else get o k'.
Proof.
  induction o as [|[k1 v1] r IH]; simpl.
  - reflexivity.
  - destruct (String.eqb_spec k k1) as [E|N]; [discriminate|]. intros G.
    destruct (before k k1); simpl.
    + reflexivity.
    + rewrite (IH G).
      destruct (String.eqb_spec k' k1) as [E1|N1];
        destruct (String.eqb_spec k' k) as [E2|N2]; try reflexivity.
      congruence.
Qed.

Lemma keys_create o k v : Permutation (keys (create o k v)) (k :: keys o).
Proof.
  induction o as [|[k1 v1] r IH]; simpl.
  - reflexivity.
  - destruct (before k k1); simpl.
    + reflexivity.
    + unfold keys in IH. rewrite IH. apply perm_swap.
Qed.

Lemma get_update o k v k' :
  get (update o k v) k' =
  if String.eqb k' k then
    match get o k with Some _ => Some v | None => None end
  else get o k'.
Proof.
  induction o as [|[k1 v1] r IH]; simpl.
  - now destruct (String.eqb k' k).
  - destruct (String.eqb_spec k k1) as [E|N]; simpl.
    + subst k1. now destruct (String.eqb k' k).
    + rewrite IH.
      destruct (String.eqb_spec k' k1) as [E1|N1];
        destruct (String.eqb_spec k' k) as [E2|N2]; try reflexivity.
      congruence.
Qed.

Lemma keys_update o k v : keys (update o k v) = keys o.
Proof.
  induction o as [|[k1 v1] r IH]; simpl.
  - reflexivity.
  - destruct (String.eqb k k1); simpl; [reflexivity|]. f_equal. exact IH.
Qed.

Lemma In_entries_get o k v : NoDup (keys o) -> In (k, v) o -> get o k = Some v.
Proof.
  induction o as [|[k1 v1] r IH]; simpl; [tauto|].
  intros ND [E|Hin].
  - inversion E; subst. now rewrite String.eqb_refl.
  - inversion ND as [|? ? Nin ND']; subst.
    destruct (String.eqb_spec k k1) as [E|N].
    + subst k1. exfalso. apply Nin. apply (in_map fst) in Hin. exact Hin.
    + now apply IH.
Qed.

Lemma entries_of_keys o (G : string -> V) :
  (forall k v, In (k, v) o -> v = G k) ->
  entries o = map (fun k => (k, G k)) (keys o).
Proof.
  unfold entries. induction o as [|[k1 v1] r IH]; simpl; intros A.
  - reflexivity.
  - rewrite (A k1 v1) by now left. f_equal. apply IH.
    intros k v Hin. apply A. now right.
Qed.

End Facts.
End ObjFacts.
(* ================================================================== *)
(** * Grouping by tax class *)

Section Grouping.
Context {arith : JS.Arithmetic}.
Import JS Obj ObjFacts.
Local Open Scope js_scope.

Lemma subtotalOf_snoc items it :
  subtotalOf (items ++ [it])%list
  = subtotalOf items + CartItem.price it * CartItem.quantity it.
Proof. unfold subtotalOf. now rewrite fold_left_app. Qed.


Lemma classItems_snoc k items it :
  classItems k (items ++ [it])%list
  = if String.eqb (taxClassOf it) k then (classItems k items ++ [it])%list
    else classItems k items.
Proof.
  unfold classItems. rewrite filter_app. simpl.
  destruct (String.eqb (taxClassOf it) k); [reflexivity|apply app_nil_r].
Qed.

Lemma classItems_nil_iff k items :
  classItems k items = [] <-> ~ exists it, In it items /\ taxClassOf it = k.
Proof.
  unfold classItems. split.
  - intros E [it [Hin C]].
    assert (I : In it (filter (fun it => String.eqb (taxClassOf it) k) items)).
    { apply filter_In. split; [assumption|]. subst k. apply String.eqb_refl. }
    rewrite E in I. exact I.
  - intros N. destruct (filter _ items) as [|it r] eqn:E; [reflexivity|].
    exfalso. apply N. exists it.
    assert (I : In it (filter (fun it => String.eqb (taxClassOf it) k) items))
      by (rewrite E; now left).
    apply filter_In in I. destruct I as [Hin C]. apply String.eqb_eq in C. auto.
Qed.

Lemma inheritedClass_false items :
  inheritedClass items = false
  <-> forall it, In it items -> inherited (taxClassOf it) = false.
Proof.
  unfold inheritedClass. split.
  - intros E it Hin. destruct (inherited (taxClassOf it)) eqn:I; [|reflexivity].
    assert (T : existsb (fun it => inherited (taxClassOf it)) items = true)
      by (apply existsb_exists; now exists it).
    congruence.
  - intros N. destruct (existsb _ items) eqn:E; [|reflexivity].
    apply existsb_exists in E. destruct E as [it [Hin I]].
    rewrite (N it Hin) in I. discriminate.
Qed.


Lemma inheritedClass_app l1 l2 :
  inheritedClass (l1 ++ l2) = inheritedClass l1 || inheritedClass l2.
Proof. unfold inheritedClass. apply existsb_app. Qed.


Lemma grouped_nil : grouped [] [].
Proof.
  split; [constructor|]. split.
  - intros k. simpl. tauto.
  - intros k g. discriminate.
Qed.

(** One turn of the loop: it throws on a class that is inherited, and adds
    the item to the group of its class otherwise. *)
Lemma addToClass_grouped o done it :
  grouped o done -> inheritedClass done = false ->
  if inherited (taxClassOf it) then addToClass o it = Throws
  else exists o', addToClass o it = Returns o' /\ grouped o' (done ++ [it])%list.
Proof.
  intros (ND & GN & GS) C.
  set (k := taxClassOf it).
  set (fresh := {| ClassGroup.subtotal := zero; ClassGroup.items := [] |}).
  destruct (inherited k) eqn:I.
  - assert (G : get o k = None).
    { apply GN, classItems_nil_iff. intros [it' [Hin E]].
      pose proof (proj1 (inheritedClass_false done) C it' Hin) as N.
      rewrite E in N. congruence. }
    unfold addToClass, read. fold k. rewrite G, I. cbv beta iota zeta.
    now rewrite G.
  - assert (O1 : exists o1 g1,
               (match read o k with
                | Undefined => Obj.set o k fresh
                | _ => o
                end) = o1
               /\ Permutation (keys o1)
                    (match get o k with Some _ => keys o | None => k :: keys o end)
               /\ get o1 k = Some g1
               /\ g1 = classGroup done k
               /\ (forall k', k' <> k -> get o1 k' = get o k')).
    { unfold read. destruct (get o k) as [g|] eqn:G.
      - exists o, g. repeat split; auto.
      - rewrite I. exists (create o k fresh), fresh. unfold Obj.set. rewrite G.
        repeat split.
        + apply keys_create.
        + rewrite get_create by assumption. now rewrite String.eqb_refl.
        + apply GN in G. unfold classGroup, fresh. rewrite G. reflexivity.
        + intros k' N. rewrite get_create by assumption.
          now destruct (String.eqb_spec k' k). }
    destruct O1 as (o1 & g1 & E1 & PK & G1 & Eg & Oth).
    unfold addToClass. fold k fresh. cbv zeta. rewrite E1.
    unfold read. rewrite G1. eexists. split; [reflexivity|].
    unfold Obj.set. rewrite G1.
    split; [|split].
    + rewrite keys_update.
      destruct (get o k) eqn:G.
      * now apply (Permutation_NoDup (Permutation_sym PK)).
      * apply (Permutation_NoDup (Permutation_sym PK)). constructor; [|assumption].
        now apply get_None_keys.
    + intros k'. rewrite get_update, G1, classItems_snoc. fold k.
      destruct (String.eqb_spec k' k) as [E|N].
      * subst k'. rewrite String.eqb_refl. split; [discriminate|].
        intros F. now destruct (classItems k done).
      * rewrite Oth by assumption.
        destruct (String.eqb_spec k k'); [congruence|]. apply GN.
    + intros k' g. rewrite get_update, G1.
      destruct (String.eqb_spec k' k) as [E|N].
      * intros F. inversion F; subst. unfold classGroup.
        rewrite classItems_snoc. fold k. rewrite String.eqb_refl.
        rewrite subtotalOf_snoc. reflexivity.
      * rewrite Oth by assumption. intros F. apply GS in F. subst g.
        unfold classGroup. rewrite classItems_snoc. fold k.
        now destruct (String.eqb_spec k k'); [congruence|].
Qed.

Lemma fold_addToClass_Throws items :
  fold_left
    (fun itemsByTaxClass item =>
       match itemsByTaxClass with
       | Returns o => addToClass o item
       | Throws => Throws
       end)
    items Throws
  = Throws.
Proof. induction items as [|it items IH]; [reflexivity|exact IH]. Qed.

Lemma fold_addToClass items o done :
  grouped o done -> inheritedClass done = false ->
  let result :=
    fold_left
      (fun itemsByTaxClass item =>
         match itemsByTaxClass with
         | Returns o => addToClass o item
         | Throws => Throws
         end)
      items (Returns o) in
  if inheritedClass items then result = Throws
  else exists o', result = Returns o' /\ grouped o' (done ++ items)%list.
Proof.
  revert o done. induction items as [|it items IH]; intros o done G C; cbv zeta.
  - cbn. exists o. split; [reflexivity|]. now rewrite app_nil_r.
  - cbn [fold_left]. change (inheritedClass (it :: items))
      with (inherited (taxClassOf it) || inheritedClass items).
    pose proof (addToClass_grouped it G C) as S.
    destruct (inherited (taxClassOf it)) eqn:I.
    + rewrite S. apply fold_addToClass_Throws.
    + destruct S as [o' [-> G']]. cbn [orb].
      assert (C' : inheritedClass (done ++ [it]) = false).
      { rewrite inheritedClass_app, C. unfold inheritedClass.
        cbn [existsb orb]. now rewrite I. }
      specialize (IH o' (done ++ [it])%list G' C'). cbv zeta in IH.
      destruct (inheritedClass items); [exact IH|].
      destruct IH as [o'' [E G'']]. exists o''. split; [exact E|].
      now rewrite <- app_assoc in G''.
Qed.

(** The grouping throws exactly on a cart that has an item of an inherited
    class; otherwise the object holds the groups of the cart. *)
Lemma groupByTaxClass_spec items :
  if inheritedClass items then groupByTaxClass items = Throws
  else exists o, groupByTaxClass items = Returns o /\ grouped o items.
Proof. apply (fold_addToClass items grouped_nil eq_refl). Qed.

Lemma groupByTaxClass_Returns items o :
  groupByTaxClass items = Returns o ->
  inheritedClass items = false /\ grouped o items.
Proof.
  intros E. pose proof (groupByTaxClass_spec items) as S.
  destruct (inheritedClass items); [congruence|].
  destruct S as [o' [E' G]]. split; [reflexivity|]. congruence.
Qed.

(** The classes of a cart object: each class of an item, once. *)
Lemma keys_grouped o items :
  grouped o items ->
  NoDup (keys o)
  /\ forall k, In k (keys o) <-> exists it, In it items /\ taxClassOf it = k.
Proof.
  intros (ND & GN & _).
  split; [assumption|]. intros k.
  pose proof (get_None_keys o k) as F.
  pose proof (GN k) as B. pose proof (classItems_nil_iff k items) as C.
  destruct (in_dec string_dec k (keys o)) as [I|I].
  - split; [|auto]. intros _.
    destruct (classItems k items) as [|it r] eqn:E.
    + exfalso. apply (proj1 F); [|assumption]. now apply B.
    + exists it.
      assert (Hin : In it (classItems k items)) by (rewrite E; now left).
      apply filter_In in Hin. destruct Hin as [Hin Ck].
      apply String.eqb_eq in Ck. auto.
  - split; [tauto|]. intros Ex. exfalso.
    apply (proj1 C); [|assumption]. apply B. now apply F.
Qed.

Lemma classes_spec items :
  NoDup (classes items)
  /\ (inheritedClass items = false ->
      forall k, In k (classes items)
                <-> exists it, In it items /\ taxClassOf it = k)
  /\ (inheritedClass items = true -> classes items = []).
Proof.
  unfold classes. pose proof (groupByTaxClass_spec items) as S.
  destruct (inheritedClass items).
  - rewrite S. split; [constructor|]. split; [discriminate|reflexivity].
  - destruct S as [o [-> G]]. destruct (keys_grouped G) as [ND KI].
    split; [assumption|]. split; [intros _; exact KI|discriminate].
Qed.

(** The order of the classes: array indices first, then creation order. *)
Example classes_order :
  classes
    [ Sample.item "1" "1" "1" (Some "zero-rate") None;
      Sample.item "2" "1" "1" (Some "10") None;
      Sample.item "3" "1" "1" None None;
      Sample.item "4" "1" "1" (Some "2") None;
      Sample.item "5" "1" "1" (Some "") None;
      Sample.item "6" "1" "1" (Some "zero-rate") None ]
  = ["2"; "10"; "zero-rate"; "standard"].
Proof. reflexivity. Qed.

(** The entries of a cart object: each class with its group. *)
Lemma entries_grouped o items :
  grouped o items ->
  entries o = map (fun k => (k, classGroup items k)) (keys o).
Proof.
  intros (ND & _ & GS).
  apply entries_of_keys. intros k g Hin. apply GS.
  now apply In_entries_get.
Qed.

End Grouping.

(* ================================================================== *)
(** * The tax calculator *)

Section Taxes.
Context {arith : JS.Arithmetic} `{Host}.
Import JS Obj ObjFacts.
Local Open Scope js_scope.

Lemma extend_nil acc : extend acc [] = acc.
Proof. destruct acc as [tt st ls]. unfold extend. cbn. now rewrite app_nil_r. Qed.

Lemma extend_app acc l1 l2 : extend (extend acc l1) l2 = extend acc (l1 ++ l2).
Proof.
  unfold extend. cbn [TaxCalculation.tax_total TaxCalculation.shipping_tax_total
                        TaxCalculation.tax_lines].
  now rewrite !map_app, !fold_left_app, app_assoc.
Qed.

Lemma applyRate_extend items shippingTotal k acc rate :
  applyRate k (subtotalOf (classItems k items)) shippingTotal acc rate
  = extend acc [taxLineOf items shippingTotal (k, rate)].
Proof. reflexivity. Qed.

Lemma fold_applyRate items shippingTotal k rates acc :
  fold_left (applyRate k (subtotalOf (classItems k items)) shippingTotal) rates acc
  = extend acc (map (fun r => taxLineOf items shippingTotal (k, r)) rates).
Proof.
  revert acc. induction rates as [|r rates IH]; intros acc; cbn [fold_left map].
  - now rewrite extend_nil.
  - rewrite IH, applyRate_extend, extend_app. reflexivity.
Qed.

Lemma fold_applyClass items shippingTotal taxRates ks acc :
  fold_left (applyClass shippingTotal taxRates)
    (map (fun k => (k, classGroup items k)) ks) acc
  = extend acc
      (map (taxLineOf items shippingTotal)
         (flat_map (fun c => map (pair c) (filter (rateApplies c) taxRates)) ks)).
Proof.
  revert acc. induction ks as [|k ks IH]; intros acc; cbn [fold_left map flat_map].
  - now rewrite extend_nil.
  - rewrite IH. unfold applyClass. cbn [classGroup ClassGroup.subtotal].
    rewrite fold_applyRate, extend_app, map_app, map_map. reflexivity.
Qed.

(** The result of the tax calculator, in closed form. *)
Lemma calculateTaxes_closed items subtotal shippingTotal taxRates :
  calculateTaxes items subtotal shippingTotal taxRates
  = if inheritedClass items then Throws
    else Returns (taxesOf items shippingTotal taxRates).
Proof.
  unfold calculateTaxes. pose proof (groupByTaxClass_spec items) as S.
  destruct (inheritedClass items).
  - now rewrite S.
  - destruct S as [o [E G]]. rewrite E. f_equal.
    rewrite (entries_grouped G), fold_applyClass.
    unfold extend, taxesOf, taxPairs, classes, addUp. rewrite E.
    cbn [TaxCalculation.tax_total TaxCalculation.shipping_tax_total
           TaxCalculation.tax_lines app].
    now rewrite !map_map.
Qed.






End Taxes.

(* ================================================================== *)
(** * Sums in exact arithmetic *)

Section ExactSums.
#[local] Existing Instance JS.Exact.
Import JS JSFacts.
Local Open Scope js_scope.





End ExactSums.

(* ================================================================== *)
(** * Reordering of the cart *)

Section Reordering.
Context `{Host}.
Import JS JSFacts.




End Reordering.

Section ReorderingSample.
Import JS.


(** In binary64 the order of the cart shows in the last digit: 0.7, 0.2 and
    0.1 add up to 0.9999999999999999, and 0.1, 0.2 and 0.7 to 1; at a rate
    of 12.5% the tax total is 0.12499999999999999 for the one order and
    0.125 for the other. *)
Lemma totals_depend_on_order :
  let item id price := Sample.item (A := Binary64) id price "1" None None in
  let items := [item "1" "0.7"; item "2" "0.2"; item "3" "0.1"] in
  let items' := [item "3" "0.1"; item "2" "0.2"; item "1" "0.7"] in
  let rates := [Sample.taxRate 1 "12.5" "" false] in
  let host := ArithmeticHost.host (A := Binary64) in
  Permutation items items'
  /\ subtotalOf (A := Binary64) items
     = Fin (Q2Qc (9007199254740991 # 9007199254740992))
  /\ subtotalOf (A := Binary64) items' = one
  /\ subtotalOf (A := Binary64) items <> subtotalOf (A := Binary64) items'
  /\ exists taxes taxes',
       calculateTaxes (A := Binary64) (H := host) items zero zero rates
       = Returns taxes
       /\ calculateTaxes (A := Binary64) (H := host) items' zero zero rates
          = Returns taxes'
       /\ TaxCalculation.tax_total taxes' = Fin (Q2Qc (1 # 8))
       /\ TaxCalculation.tax_total taxes <> TaxCalculation.tax_total taxes'.
Proof.
  intros item items items' rates host.
  split; [apply (Permutation_rev items)|].
  split; [js_eq|]. split; [js_eq|]. split; [js_neq|].
  eexists. eexists. split; [reflexivity|]. split; [reflexivity|].
  split; [js_eq|js_neq].
Qed.

End ReorderingSample.

(* ================================================================== *)
(** * Printing to two decimals and reading back *)

Module StrFacts.
Import JS JSFacts Str.

Section Examples.
#[local] Existing Instance JS.Exact.

(** The parsers and the printer on a few strings. *)
Example parseFloat_examples :
  parseFloat "18.0000" = ofZ 18
  /\ parseFloat "  -5.5e1 per item" = ofZ (-55)
  /\ parseFloat ".5" = Fin (Q2Qc (1 # 2))
  /\ parseFloat "5." = ofZ 5
  /\ parseFloat "1e" = ofZ 1
  /\ parseFloat "-Infinity" = NInf
  /\ parseFloat "" = NaN
  /\ parseFloat "." = NaN
  /\ parseFloat "abc" = NaN
  /\ parseFloat "0x10" = ofZ 0.
Proof. repeat split; try reflexivity; js_eq. Qed.

Example Number_examples :
  Number "" = zero
  /\ Number " 12.50 " = Fin (Q2Qc (25 # 2))
  /\ Number "0x1f" = ofZ 31
  /\ Number "12abc" = NaN
  /\ Number "Infinity" = PInf.
Proof. repeat split; try reflexivity; js_eq. Qed.

Example toFixed_examples :
  toFixed (ofZ 50) 2 = "50.00"
  /\ toFixed (Fin (Q2Qc (1 # 200))) 2 = "0.01"
  /\ toFixed (Fin (Q2Qc (3 # 500))) 2 = "0.01"
  /\ toFixed (Fin (Q2Qc (-12345678 # 10000))) 2 = "-1234.57"
  /\ toFixed (Fin (Q2Qc (-1 # 1000))) 2 = "-0.00"
  /\ toFixed NaN 2 = "NaN"
  /\ toFixed (ofZ 12) 0 = "12".
Proof. repeat split; vm_compute; reflexivity. Qed.

Example replace_examples :
  replace "10 * [qty] + [qty]" "[qty]" "3" = "10 * 3 + [qty]"
  /\ includes "5 + [cost] * 0.1" "[cost]" = true
  /\ includes "49.00" "[qty]" = false.
Proof. repeat split. Qed.

End Examples.

Section Printing.
Context {arith : JS.Arithmetic}.

Lemma digits_no_digit s : noDigitHead s -> digits s = (Decimal.Nil, s).
Proof. destruct s as [|c r]; simpl; [reflexivity|]. now intros ->. Qed.

Lemma digits_string_of_uint u rest :
  noDigitHead rest ->
  digits (NilEmpty.string_of_uint u ++ rest) = (u, rest).
Proof.
  intros N. induction u; simpl;
    [now apply digits_no_digit | now rewrite IHu ..].
Qed.

Lemma to_uint_nonnil (a : N) : N.to_uint a <> Decimal.Nil.
Proof.
  destruct a as [|p]; [discriminate|].
  apply DecimalPos.Unsigned.to_uint_nonnil.
Qed.

Lemma dropPrefix_Infinity_digits u rest :
  u <> Decimal.Nil ->
  dropPrefix "Infinity" (NilEmpty.string_of_uint u ++ rest) = None.
Proof. destruct u; [congruence|reflexivity ..]. Qed.

Lemma strDecimalLiteral_digits u rest :
  u <> Decimal.Nil ->
  strDecimalLiteral (NilEmpty.string_of_uint u ++ rest)
  = strUnsignedDecimalLiteral (NilEmpty.string_of_uint u ++ rest).
Proof. destruct u; [congruence|reflexivity ..]. Qed.

Lemma nonDecimalIntegerLiteral_digits u rest :
  u <> Decimal.Nil ->
  nonDecimalIntegerLiteral (NilEmpty.string_of_uint u ++ "." ++ rest) = None.
Proof.
  destruct u as [|u|u|u|u|u|u|u|u|u|u]; try congruence; try reflexivity.
  intros _. destruct u; reflexivity.
Qed.

(** The two decimals of a number below 100. *)
Lemma two_decimals (m : N) :
  (m < 100)%N ->
  Decimal.nb_digits (padLeft 2 (N.to_uint m)) = 2%nat
  /\ N.of_uint (padLeft 2 (N.to_uint m)) = m.
Proof.
  intros L.
  assert (A : forallb
                (fun k =>
                   let m := N.of_nat k in
                   (Decimal.nb_digits (padLeft 2 (N.to_uint m)) =? 2)%nat
                   && (N.of_uint (padLeft 2 (N.to_uint m)) =? m)%N)
                (seq 0 100) = true) by (vm_compute; reflexivity).
  rewrite forallb_forall in A.
  specialize (A (N.to_nat m)). rewrite N2Nat.id in A.
  assert (I : In (N.to_nat m) (seq 0 100)) by (apply in_seq; lia).
  apply A in I. apply andb_true_iff in I. destruct I as [I1 I2].
  apply Nat.eqb_eq in I1. apply N.eqb_eq in I2. auto.
Qed.

Lemma append_empty s : s ++ "" = s.
Proof. induction s; simpl; congruence. Qed.

(** Reading back an integer part, a point and two decimals. *)
Lemma strUnsignedDecimalLiteral_fixed2 (a m : N) :
  (m < 100)%N ->
  strUnsignedDecimalLiteral
    (NilEmpty.string_of_uint (N.to_uint a) ++ "." ++
     NilEmpty.string_of_uint (padLeft 2 (N.to_uint m)))
  = Some (round (Q2Qc ((Z.of_N a * 100 + Z.of_N m) # 100)), "").
Proof.
  intros L. destruct (two_decimals L) as [D V].
  unfold strUnsignedDecimalLiteral.
  rewrite dropPrefix_Infinity_digits by apply to_uint_nonnil.
  rewrite digits_string_of_uint by reflexivity.
  cbn [append].
  rewrite <- (append_empty (NilEmpty.string_of_uint (padLeft 2 (N.to_uint m)))).
  rewrite digits_string_of_uint by exact I.
  assert (E : decimal (N.to_uint a) (padLeft 2 (N.to_uint m)) 0
              = Q2Qc ((Z.of_N a * 100 + Z.of_N m) # 100)).
  { unfold decimal. rewrite D, V, DecimalN.Unsigned.of_to. reflexivity. }
  pose proof (to_uint_nonnil a) as NN.
  destruct (N.to_uint a); [congruence| cbn [exponentPart]; now rewrite E ..].
Qed.

Lemma trim_noWhiteSpace s : noWhiteSpace s = true -> trim s = s.
Proof.
  intros W. unfold trim.
  assert (S : trimStart s = s).
  { destruct s as [|c r]; [reflexivity|]. simpl in *.
    apply andb_true_iff in W. destruct W as [W _].
    now destruct (isWhiteSpace c). }
  rewrite S. clear S. induction s as [|c r IH]; [reflexivity|].
  simpl in *. apply andb_true_iff in W. destruct W as [Wc Wr].
  rewrite (IH Wr). destruct r; [|reflexivity].
  now destruct (isWhiteSpace c).
Qed.

Lemma noWhiteSpace_app s1 s2 :
  noWhiteSpace (s1 ++ s2) = noWhiteSpace s1 && noWhiteSpace s2.
Proof.
  induction s1 as [|c r IH]; simpl; [reflexivity|].
  now rewrite IH, andb_assoc.
Qed.

Lemma noWhiteSpace_string_of_uint u :
  noWhiteSpace (NilEmpty.string_of_uint u) = true.
Proof. induction u; simpl; trivial. Qed.

(** [Number] on a literal without white space. *)
Lemma Number_literal t v :
  noWhiteSpace t = true -> t <> "" ->
  nonDecimalIntegerLiteral t = None ->
  strDecimalLiteral t = Some (v, "") ->
  Number t = v.
Proof.
  intros W NE ND SD. unfold Number. rewrite (trim_noWhiteSpace _ W).
  destruct t; [congruence|]. now rewrite ND, SD.
Qed.

(** Printing to two decimals and reading back rounds to two decimals. *)
Lemma Number_toFixed2 x : Number (toFixed x 2) = round2 x.
Proof.
  destruct x as [q| | |]; try reflexivity.
  unfold toFixed, round2.
  set (n := roundScaled q 2).
  change (10 ^ N.of_nat 2)%N with 100%N.
  assert (L : (n mod 100 < 100)%N) by (apply N.mod_lt; discriminate).
  pose proof (strUnsignedDecimalLiteral_fixed2 (n / 100) L) as U.
  assert (E : (Z.of_N (n / 100) * 100 + Z.of_N (n mod 100))%Z = Z.of_N n).
  { rewrite (N.div_mod' n 100) at 3. lia. }
  rewrite E in U.
  set (body := NilEmpty.string_of_uint (N.to_uint (n / 100)) ++ "." ++
               NilEmpty.string_of_uint (padLeft 2 (N.to_uint (n mod 100)))) in *.
  assert (W : noWhiteSpace body = true).
  { unfold body. rewrite !noWhiteSpace_app, !noWhiteSpace_string_of_uint.
    reflexivity. }
  assert (ND : nonDecimalIntegerLiteral body = None)
    by (apply nonDecimalIntegerLiteral_digits, to_uint_nonnil).
  assert (SD : strDecimalLiteral body
               = Some (round (Q2Qc (Z.of_N n # 100)), ""))
    by (unfold body; rewrite strDecimalLiteral_digits
          by apply to_uint_nonnil; exact U).
  assert (NE : body <> "").
  { unfold body. pose proof (to_uint_nonnil (n / 100)) as NN.
    destruct (N.to_uint (n / 100)); [congruence|discriminate ..]. }
  destruct (sgn q).
  - now apply Number_literal.
  - apply Number_literal.
    + exact W.
    + discriminate.
    + reflexivity.
    + cbn [append strDecimalLiteral]. now rewrite U.
  - now apply Number_literal.
Qed.

(** The bounds of the integer that [toFixed] prints for two decimals. *)
Lemma roundScaled_bounds (q : Q) :
  let k := Z.of_N (roundScaled q 2) in
  let A := (Z.abs (Qnum q) * 100)%Z in
  let B := Z.pos (Qden q) in
  (2 * B * k <= 2 * A + B < 2 * B * k + 2 * B)%Z.
Proof.
  intros k A B. unfold k, roundScaled. fold A B.
  change (10 ^ Z.of_nat 2)%Z with 100%Z. fold A.
  assert (PB : (0 < 2 * B)%Z) by (unfold B; lia).
  assert (PA : (0 <= 2 * A + B)%Z) by (unfold A, B; lia).
  rewrite Z2N.id by (apply Z.div_pos; lia).
  pose proof (Z.mul_div_le (2 * A + B) (2 * B) PB).
  pose proof (Z.mul_succ_div_gt (2 * A + B) (2 * B) PB).
  lia.
Qed.

Lemma sgn_num (q : Qc) : sgn q = (Qnum q ?= 0)%Z.
Proof.
  unfold sgn, Qccompare, Qcompare. change (this (Q2Qc 0)) with 0%Q.
  cbn [Qnum Qden]. now rewrite Z.mul_1_r.
Qed.

(** [round2] takes the whole number of hundredths that is at most half a
    hundredth away from the absolute value of its argument, and gives it
    the sign of the argument. *)
Lemma round2_nearest (q : Qc) :
  exists k : Z,
    (0 <= k)%Z
    /\ round2 (Fin q)
       = match sgn q with
         | Lt => neg (round (Q2Qc (k # 100)))
         | _ => round (Q2Qc (k # 100))
         end
    /\ ((Z.abs (Qnum q) # Qden q) - (1 # 200) <= k # 100)%Q
    /\ (k # 100 <= (Z.abs (Qnum q) # Qden q) + (1 # 200))%Q.
Proof.
  pose proof (roundScaled_bounds q) as Bd. cbv zeta in Bd.
  exists (Z.of_N (roundScaled q 2)).
  split; [lia|]. split; [reflexivity|].
  set (k := Z.of_N (roundScaled q 2)) in *.
  unfold Qle, Qminus, Qplus, Qopp. cbn [Qnum Qden]. lia.
Qed.

End Printing.
End StrFacts.

(* ================================================================== *)
(** * The GST breakdown *)

Section GSTBreakdown.
Context {arith : JS.Arithmetic} `{Host}.
Import JS JSFacts StrFacts.
Local Open Scope js_scope.

(** The two accumulators go through the same additions. *)
Lemma fold_splitLine lines acc :
  fold_left splitLine lines (acc, acc)
  = (fold_left
       (fun acc taxLine =>
          acc + TaxLine.tax_total taxLine / two
          + TaxLine.shipping_tax_total taxLine / two)
       lines acc,
     fold_left
       (fun acc taxLine =>
          acc + TaxLine.tax_total taxLine / two
          + TaxLine.shipping_tax_total taxLine / two)
       lines acc).
Proof.
  revert acc. induction lines as [|l lines IH]; intros acc; [reflexivity|].
  cbn [fold_left]. unfold splitLine at 2. apply IH.
Qed.

Lemma round_zero_eq (q : Qc) : (q == 0)%Q -> round q = zero.
Proof.
  intros E. replace q with (Q2Qc 0) by (apply Qc_is_canon; now rewrite E).
  apply round_zero.
Qed.

Lemma round2_zero : round2 zero = zero.
Proof. unfold round2, zero, ofZ. cbn. now apply round_zero_eq. Qed.

Lemma calculateGSTBreakdown_closed (tc : TaxCalculation.t) :
  let half := halves (TaxCalculation.tax_lines tc) in
  calculateGSTBreakdown (Some tc)
  = {| GST.cgst := round2 half;
       GST.sgst := round2 half;
       GST.igst := zero;
       GST.total := round2 (half + half + zero) |}.
Proof.
  intros half. unfold calculateGSTBreakdown.
  rewrite fold_splitLine. fold (halves (TaxCalculation.tax_lines tc)).
  fold half. rewrite !Number_toFixed2. now rewrite round2_zero.
Qed.

(** C4 (amended).  The GST breakdown adds half of the item tax and half of
    the shipping tax of every tax line to each of the two accumulators
    CGST and SGST, line after line; it returns each of them rounded to two
    decimals, an IGST of 0, and as total the sum of the three accumulators
    rounded to two decimals; without a tax calculation all four are 0.  In
    binary64, the tax of 198 of the 18% example gives 99, 99, 0 and 198,
    and an item tax of 14.95 gives a CGST of 7.47: half of it is below
    7.475. *)
Theorem calculateGSTBreakdown_halves (taxCalculation : TaxCalculation.t) :
  let half := halves (TaxCalculation.tax_lines taxCalculation) in
  let gst := calculateGSTBreakdown (Some taxCalculation) in
  GST.cgst gst = round2 half
  /\ GST.sgst gst = round2 half
  /\ GST.igst gst = zero
  /\ GST.total gst = round2 (half + half + zero)
  /\ calculateGSTBreakdown None
     = {| GST.cgst := zero; GST.sgst := zero; GST.igst := zero;
          GST.total := zero |}
  /\ (forall q : Qc,
        exists k : Z,
          (0 <= k)%Z
          /\ round2 (Fin q)
             = match sgn q with
               | Lt => neg (round (Q2Qc (k # 100)))
               | _ => round (Q2Qc (k # 100))
               end
          /\ ((Z.abs (Qnum q) # Qden q) - (1 # 200) <= k # 100)%Q
          /\ (k # 100 <= (Z.abs (Qnum q) # Qden q) + (1 # 200))%Q)
  /\ (exists taxes,
        calculateTaxes (A := Binary64) (Sample.cart1000 (A := Binary64))
          (ofZ 1000) (ofZ 100) Sample.gst18 = Returns taxes
        /\ let gst := calculateGSTBreakdown (A := Binary64) (Some taxes) in
           GST.cgst gst = ofZ 99 /\ GST.sgst gst = ofZ 99
           /\ GST.igst gst = ofZ 0 /\ GST.total gst = ofZ 198)
  /\ (let gst :=
        calculateGSTBreakdown (A := Binary64)
          (Some (oneLine (Str.parseFloat (A := Binary64) "14.95") zero)) in
      Str.toFixed (GST.cgst gst) 2 = "7.47"
      /\ Str.toFixed (GST.total gst) 2 = "14.95").
Proof.
  intros half gst. unfold gst. rewrite calculateGSTBreakdown_closed.
  fold half. cbn [GST.cgst GST.sgst GST.igst GST.total].
  do 4 (split; [reflexivity|]). split; [reflexivity|].
  split; [apply round2_nearest|]. split.
  - eexists. split; [reflexivity|]. cbv zeta.
    split; [js_eq|]. split; [js_eq|]. split; js_eq.
  - split; vm_compute; reflexivity.
Qed.

End GSTBreakdown.

Section GSTSample.
Import JS.

(** C4, as stated, fails: in binary64, on a cart of 12 taxed at 0.1%, the
    tax of 0.012 gives CGST 0.01 and SGST 0.01, and a total of 0.01, which
    is not the sum 0.02 of the three values returned. *)
Lemma calculateGSTBreakdown_total_not_sum :
  let host := ArithmeticHost.host (A := Binary64) in
  exists taxes,
    calculateTaxes (A := Binary64) (H := host)
      [Sample.item (A := Binary64) "1" "12" "1" None None] (ofZ 12) zero
      [Sample.taxRate 7 "0.1" "" false] = Returns taxes
    /\ let gst := calculateGSTBreakdown (A := Binary64) (Some taxes) in
       Str.toFixed (TaxCalculation.tax_total taxes) 3 = "0.012"
       /\ GST.cgst gst = Sample.num (A := Binary64) "0.01"
       /\ GST.sgst gst = Sample.num (A := Binary64) "0.01"
       /\ GST.igst gst = zero
       /\ GST.total gst = Sample.num (A := Binary64) "0.01"
       /\ GST.total gst
          <> add (A := Binary64)
               (add (A := Binary64) (GST.cgst gst) (GST.sgst gst))
               (GST.igst gst).
Proof.
  cbv zeta. eexists. split; [reflexivity|].
  split; [vm_compute; reflexivity|].
  split; [js_eq|]. split; [js_eq|]. split; [js_eq|]. split; [js_eq|js_neq].
Qed.

End GSTSample.

(* ================================================================== *)
(** * The shipping cost *)

Section ShippingCost.
Context {arith : JS.Arithmetic} `{Host}.
Import JS JSFacts.
Local Open Scope js_scope.

Lemma not_negative_at_least_zero x :
  isFinite x = true -> (x <? zero) = false -> (x >=? zero) = true.
Proof.
  destruct x; simpl; try discriminate. intros _.
  now destruct (_ ?= _)%Qc.
Qed.

(** C6 (amended).  For a shipping method of which the cost expression has
    neither the [[qty]] nor the [[cost]] placeholder, and every cart, the
    shipping cost is [toNum] of the expression: a finite amount, which is
    not negative unless the expression parses to a negative number. *)
Theorem calculateShippingCost_fixed_not_negative
    (shippingMethod : ShippingMethod.t) (cartItems : list CartItem.t) :
  let cost :=
    Setting.value (Settings.cost (ShippingMethod.settings shippingMethod)) in
  Str.includes cost "[qty]" = false ->
  Str.includes cost "[cost]" = false ->
  calculateShippingCost shippingMethod cartItems = toNum (VString cost) zero
  /\ isFinite (calculateShippingCost shippingMethod cartItems) = true
  /\ ((Str.parseFloat cost <? zero) = false ->
      (calculateShippingCost shippingMethod cartItems >=? zero) = true).
Proof.
  intros cost Hq Hc.
  rewrite calculateShippingCost_fixed by assumption. fold cost.
  split; [reflexivity|]. split; [apply toNum_finite|].
  intros L. unfold toNum. cbn [nullish ToString].
  destruct (isFinite (Str.parseFloat cost)) eqn:F.
  - now apply not_negative_at_least_zero.
  - reflexivity.
Qed.

End ShippingCost.

Section ShippingCostSample.
#[local] Existing Instance JS.Binary64.
#[local] Existing Instance ArithmeticHost.host.
Import JS.
Local Open Scope js_scope.

(** A fixed cost of 100 is a shipping cost of 100. *)
Lemma calculateShippingCost_fixed_not_negative_witness :
  let m := Sample.shippingMethod 1 "flat_rate" "100" true in
  calculateShippingCost m Sample.cart1000 = ofZ 100
  /\ (calculateShippingCost m Sample.cart1000 >=? zero) = true.
Proof.
  intros m.
  destruct (@calculateShippingCost_fixed_not_negative _ _ m Sample.cart1000
              eq_refl eq_refl) as (E & _ & G).
  split.
  - rewrite E. js_eq.
  - apply G. reflexivity.
Defined.

(** The two kinds of formula on a cart of three pieces at 20. *)
Example calculateShippingCost_formulas :
  let items := [Sample.item "1" "20" "3" None None] in
  calculateShippingCost (Sample.shippingMethod 1 "flat_rate" "10 * [qty]" true) items
  = ofZ 30
  /\ calculateShippingCost
       (Sample.shippingMethod 1 "flat_rate" "5 + [cost] * 0.1" true) items
     = ofZ 11
  /\ calculateShippingCost
       (Sample.shippingMethod 1 "flat_rate" "12 per [qty]" true) items
     = ofZ 12.
Proof. cbv zeta. repeat split; js_eq. Qed.

(** C6, as stated, fails: a fixed cost of -5 is a shipping cost of -5, and
    the formula [[qty] * -2] on a cart of one item is a shipping cost
    of -2. *)
Lemma calculateShippingCost_negative :
  let fixed := Sample.shippingMethod 1 "flat_rate" "-5" true in
  let formula := Sample.shippingMethod 2 "flat_rate" "[qty] * -2" true in
  calculateShippingCost fixed Sample.cart1000 = ofZ (-5)
  /\ (calculateShippingCost fixed Sample.cart1000 >=? zero) = false
  /\ calculateShippingCost formula Sample.cart1000 = ofZ (-2)
  /\ (calculateShippingCost formula Sample.cart1000 >=? zero) = false.
Proof.
  cbv zeta. repeat split; try js_eq; vm_compute; reflexivity.
Qed.

End ShippingCostSample.

(* ================================================================== *)
(** * The grand total *)

Section Total.
Context {arith : JS.Arithmetic} `{Host}.
Import JS State.
Local Open Scope js_scope.













(** What the tax effect does: with no cart item, no tax rate and no
    shipping line it does nothing; otherwise it replaces the tax
    calculation by what [updateTaxCalculation] computes from the cart, the
    shipping lines and the tax rates of the state, and throws when the tax
    calculator does. *)
Lemma taxEffect_spec st :
  match cartItems st, taxRates st, shippingLines st with
  | [], [], [] => taxEffect st = Returns st
  | _, _, _ =>
      match
        updateTaxCalculation (cartItems st) (shippingLines st) (taxRates st)
      with
      | Returns stored => taxEffect st = Returns (setTaxCalculation stored st)
      | Throws => taxEffect st = Throws
      end
  end.
Proof.
  unfold taxEffect.
  destruct (cartItems st), (taxRates st), (shippingLines st);
    cbn [List.length Nat.ltb Nat.leb orb]; try reflexivity;
    destruct (updateTaxCalculation _ _ _); reflexivity.
Qed.



(** The handlers of the cart and the payment effect lead from a state that
    the screen can show to one that it can show. *)
Lemma reachable_handlers st :
  reachable st ->
  (forall id qty remote, reachable (updateQuantity id qty remote st))
  /\ (forall id remote, reachable (removeItem id remote st))
  /\ (forall code remote, reachable (removeCoupon code remote st))
  /\ reachable (paymentEffect st)
  /\ (forall st', effects st = Returns st' -> reachable st').
Proof.
  intros R. repeat split.
  - intros id qty remote. unfold updateQuantity.
    destruct (qty <? one); [exact R|].
    apply reachable_updateCartMeta.
    now apply reachable_other with st.
  - intros id remote. unfold removeItem.
    apply reachable_updateCartMeta.
    now apply reachable_other with st.
  - intros code remote. unfold removeCoupon.
    destruct (userId st) as [[|uid|uid]|]; try exact R.
    all: destruct remote; [exact R|now apply reachable_other with st].
  - unfold paymentEffect. destruct (_ && _)%bool; [|exact R].
    now apply reachable_other with st.
  - intros st'. unfold effects.
    destruct (taxEffect st) as [|st1] eqn:E; [discriminate|].
    intros [= <-]. unfold paymentEffect.
    destruct (_ && _)%bool.
    + apply reachable_other with st1; try reflexivity.
      now apply reachable_taxEffect with st.
    + now apply reachable_taxEffect with st.
Qed.

Lemma zero_plus_zero : zero + zero = zero.
Proof. unfold zero, ofZ. cbn [add]. now apply round_zero_eq. Qed.

Lemma updateTaxCalculation_Throws items shipping rates :
  updateTaxCalculation items shipping rates = Throws
  <-> rates <> [] /\ inheritedClass items = true.
Proof.
  unfold updateTaxCalculation. rewrite calculateTaxes_closed.
  destruct rates as [|r rs]; cbn [List.length Nat.ltb Nat.leb].
  - split; [discriminate|now intros [N _]].
  - destruct (inheritedClass items); split; try discriminate.
    + now split.
    + reflexivity.
    + now intros [_ N].
Qed.

Lemma taxEffect_Throws st :
  taxEffect st = Throws
  <-> taxRates st <> [] /\ inheritedClass (cartItems st) = true.
Proof.
  unfold taxEffect, updateTaxCalculation.
  rewrite calculateTaxes_closed.
  destruct (taxRates st) as [|r rs].
  - cbn [List.length Nat.ltb Nat.leb]. split.
    + destruct (_ || _ || _)%bool; discriminate.
    + now intros [N _].
  - cbn [List.length Nat.ltb Nat.leb]. rewrite orb_true_r. cbn [orb].
    destruct (inheritedClass (cartItems st)); split; try discriminate.
    + now split.
    + reflexivity.
    + now intros [_ N].
Qed.


End Total.

Section TotalSample.
#[local] Existing Instance JS.Binary64.
#[local] Existing Instance ArithmeticHost.host.
Import JS State.
Local Open Scope js_scope.


(** The tax calculation can be older than the cart.  The cart of 1000 is
    loaded while the request for the shipping methods fails, so that there
    is no shipping line and the tax is 180; then the screen is loaded again
    and every request but the one for the session fails.  The cart is
    empty, there is no tax rate and no shipping line, the tax effect does
    nothing, and the total of the empty cart is the tax of the cart
    before. *)
Example total_of_emptied_cart :
  exists first again,
    Sample.load FetchThrows State.initial = Returns first
    /\ effects
         (loadCart (Returns (Some 42%Z)) FetchThrows FetchThrows FetchThrows
            Throws Sample.getProductDetail first)
       = Returns again
    /\ cartItems again = []
    /\ taxRates again = []
    /\ shippingLines again = []
    /\ subtotal again = zero
    /\ totalTax again = ofZ 180
    /\ total again = ofZ 180.
Proof.
  eexists. eexists.
  split; [vm_compute; reflexivity|].
  split; [vm_compute; reflexivity|].
  repeat split; js_eq.
Qed.

End TotalSample.

(* ================================================================== *)
(** * Requests that fail *)

Section Degradation.
Context {arith : JS.Arithmetic} `{Host}.
Import JS State.
Local Open Scope js_scope.

(** A request that fails, or that is answered with an error status, gives
    the empty list. *)
Lemma failed_requests_give_empty_lists :
  loadTaxRates FetchThrows = []
  /\ (forall json, loadTaxRates (FetchResponse false json) = [])
  /\ loadShippingMethods FetchThrows = []
  /\ (forall json, loadShippingMethods (FetchResponse false json) = [])
  /\ loadPaymentGateways FetchThrows = []
  /\ (forall json, loadPaymentGateways (FetchResponse false json) = []).
Proof. repeat split. Qed.

Lemma updateTaxCalculation_no_rates items shipping :
  updateTaxCalculation items shipping [] = Returns None.
Proof. reflexivity. Qed.

Lemma totalTax_no_calculation st : taxCalculation st = None -> totalTax st = zero.
Proof.
  intros E. unfold totalTax, itemTaxTotal, shippingTaxTotal. rewrite E.
  apply zero_plus_zero.
Qed.

Lemma determinePaymentMethod_no_gateways items :
  determinePaymentMethod items [] = None.
Proof.
  unfold determinePaymentMethod. cbn [filter find].
  now destruct (forallb supportsCOD items).
Qed.

Lemma calculateShippingLines_no_methods items :
  calculateShippingLines [] items = [] /\ shippingTotalOf [] = zero.
Proof. split; reflexivity. Qed.

(** Without shipping methods a run of [loadCart] that reaches its end
    writes neither the selected method nor the shipping lines: they stay
    those of the state before. *)
Lemma loadCart_keeps_shipping_lines session taxes methodsResponse
    gatewaysResponse customer getProductDetail st :
  loadShippingMethods methodsResponse = [] ->
  let st' :=
    loadCart session taxes methodsResponse gatewaysResponse customer
      getProductDetail st in
  shippingLines st' = shippingLines st
  /\ selectedShippingMethod st' = selectedShippingMethod st.
Proof.
  intros M. cbv zeta. unfold loadCart, loadCartFailed. rewrite M.
  cbn [List.length Nat.ltb Nat.leb andb].
  destruct session as [|[[|uid|uid]|]]; try (split; reflexivity).
  all: destruct customer as [|customer]; [split; reflexivity|].
  all: destruct (fetchItems _ _ _) as [|fetched]; [split; reflexivity|].
  all: destruct (updateTaxCalculation _ _ _); split; reflexivity.
Qed.

(** The state that a run of [loadCart] leaves when it reaches its end,
    field by field. *)
Lemma loadCart_fields uid taxes methodsResponse gatewaysResponse customer
    getProductDetail fetched st :
  uid <> 0%Z ->
  fetchItems getProductDetail (Customer.cart customer) [] = Returns fetched ->
  inheritedClass fetched = false ->
  let rates := loadTaxRates taxes in
  let methods := loadShippingMethods methodsResponse in
  let gateways := loadPaymentGateways gatewaysResponse in
  let st' :=
    loadCart (Returns (Some uid)) taxes methodsResponse gatewaysResponse
      (Returns customer) getProductDetail st in
  cartItems st' = fetched
  /\ taxRates st' = rates
  /\ shippingMethods st' = methods
  /\ paymentGateways st' = gateways
  /\ selectedPaymentMethod st' = determinePaymentMethod fetched gateways
  /\ (exists shippingData,
        updateTaxCalculation fetched shippingData rates
        = Returns (taxCalculation st'))
  /\ (methods = [] ->
      shippingLines st' = shippingLines st
      /\ selectedShippingMethod st' = selectedShippingMethod st).
Proof.
  intros U Fe I rates methods gateways st'.
  unfold st', loadCart. fold rates methods gateways. rewrite Fe.
  destruct uid as [|p|p]; [congruence| |];
    (destruct ((0 <? List.length methods) && (0 <? List.length fetched))%nat
       eqn:G;
     (destruct (updateTaxCalculation fetched _ rates) as [|stored] eqn:Tx;
      [ apply updateTaxCalculation_Throws in Tx; destruct Tx; congruence |]);
     do 5 (split; [reflexivity|]);
     (split;
      [ eexists; exact Tx
      | intros M; first [ rewrite M in G; discriminate
                        | split; reflexivity ] ])).
Qed.

(** After a run of [loadCart] that reaches its end, in whatever state it
    starts, and after the effects: without tax rates there is no tax
    calculation and the total tax is 0; without gateways no payment method
    is selected; without shipping methods the shipping lines stay those of
    the state before, so that the shipping total is 0 when there were
    none. *)
Lemma loadCart_degrades uid taxes methodsResponse gatewaysResponse customer
    getProductDetail fetched st :
  uid <> 0%Z ->
  fetchItems getProductDetail (Customer.cart customer) [] = Returns fetched ->
  inheritedClass fetched = false ->
  exists st',
    effects
      (loadCart (Returns (Some uid)) taxes methodsResponse gatewaysResponse
         (Returns customer) getProductDetail st)
    = Returns st'
    /\ (loadTaxRates taxes = [] ->
        taxCalculation st' = None /\ totalTax st' = zero)
    /\ (loadPaymentGateways gatewaysResponse = [] ->
        selectedPaymentMethod st' = None)
    /\ (loadShippingMethods methodsResponse = [] ->
        shippingLines st' = shippingLines st
        /\ (shippingLines st = [] -> shippingTotal st' = zero)).
Proof.
  intros U Fe I.
  destruct (@loadCart_fields uid taxes methodsResponse gatewaysResponse customer
              getProductDetail fetched st U Fe I)
    as (E1 & E2 & E3 & E4 & E5 & [sd E6] & E7).
  set (s1 := loadCart (Returns (Some uid)) taxes methodsResponse
               gatewaysResponse (Returns customer) getProductDetail st) in *.
  destruct (taxEffect s1) as [|s2] eqn:T.
  { apply taxEffect_Throws in T. destruct T as [_ T]. congruence. }
  exists (paymentEffect s2). unfold effects. rewrite T.
  split; [reflexivity|].
  assert (PT : forall s, taxCalculation (paymentEffect s) = taxCalculation s)
    by (intros s; unfold paymentEffect; destruct (_ && _); reflexivity).
  assert (PL : forall s, shippingLines (paymentEffect s) = shippingLines s)
    by (intros s; unfold paymentEffect; destruct (_ && _); reflexivity).
  assert (S2 : shippingLines s2 = shippingLines s1
               /\ paymentGateways s2 = paymentGateways s1
               /\ cartItems s2 = cartItems s1
               /\ selectedPaymentMethod s2 = selectedPaymentMethod s1
               /\ (taxRates s1 = [] -> taxCalculation s2 = None)).
  { unfold taxEffect in T. destruct (_ || _ || _)%bool.
    - destruct (updateTaxCalculation (cartItems s1) (shippingLines s1)
                  (taxRates s1)) as [|stored] eqn:Tx; [discriminate|].
      injection T as <-. do 4 (split; [reflexivity|]).
      intros R. rewrite R in Tx. now injection Tx as <-.
    - injection T as <-. do 4 (split; [reflexivity|]).
      intros R. rewrite <- E2, R in E6.
      now injection E6 as <-. }
  destruct S2 as (L2 & G2 & C2 & P2 & T2).
  split; [|split].
  - intros R. rewrite <- E2 in R.
    assert (N : taxCalculation (paymentEffect s2) = None)
      by (rewrite PT; now apply T2).
    split; [exact N|now apply totalTax_no_calculation].
  - intros Gw. rewrite <- E4 in Gw. unfold paymentEffect.
    rewrite G2, Gw. cbn [List.length Nat.ltb Nat.leb].
    rewrite andb_false_r, P2, E5.
    rewrite E4 in Gw. rewrite Gw. apply determinePaymentMethod_no_gateways.
  - intros M. destruct (E7 M) as (L & _).
    rewrite PL, L2, L. split; [reflexivity|].
    intros Z. unfold shippingTotal. rewrite PL, L2, L, Z. reflexivity.
Qed.

End Degradation.

Section DegradationSample.
#[local] Existing Instance JS.Binary64.
#[local] Existing Instance ArithmeticHost.host.
Import JS.
Local Open Scope js_scope.

(** C7.  When the request for the shipping methods fails, the shipping
    total is 0 on the first load of the screen, but not on a later one: the
    first load of the sample leaves one shipping line of 50; the screen
    comes back into focus, [loadCart] runs again, the request fails and the
    list of shipping methods becomes empty, but the shipping line of 50 is
    still in the state, the shipping total is 50 and a shipping tax of 9
    is part of the total tax. *)
Theorem reload_keeps_shipping_lines :
  exists alone first again,
    Sample.load FetchThrows State.initial = Returns alone
    /\ Sample.firstLoad = Returns first
    /\ Sample.reload = Returns again
    /\ shippingTotal alone = zero
    /\ State.shippingLines first <> []
    /\ shippingTotal first = ofZ 50
    /\ State.shippingMethods again = []
    /\ State.shippingLines again = State.shippingLines first
    /\ shippingTotal again = ofZ 50
    /\ shippingTotal again <> zero
    /\ shippingTaxTotal again = ofZ 9
    /\ total again = ofZ 1239.
Proof.
  do 3 eexists.
  split; [vm_compute; reflexivity|].
  split; [vm_compute; reflexivity|].
  split; [vm_compute; reflexivity|].
  split; [js_eq|].
  split; [discriminate|].
  split; [js_eq|].
  split; [reflexivity|].
  split; [reflexivity|].
  split; [js_eq|].
  split; [js_neq|].
  split; js_eq.
Qed.

End DegradationSample.

(* ================================================================== *)
(** * Shipping lines *)

Section ShippingLines.
Context {arith : JS.Arithmetic} `{Host}.
Import JS Str StrFacts.
Local Open Scope js_scope.

Lemma trimStart_noWhiteSpace s : noWhiteSpace s = true -> trimStart s = s.
Proof.
  destruct s as [|c r]; [reflexivity|]. simpl.
  intros W. apply andb_true_iff in W. destruct W as [W _].
  now destruct (isWhiteSpace c).
Qed.

(** Reading with [parseFloat] what [toFixed] printed with two decimals. *)
Lemma parseFloat_toFixed2 x : parseFloat (toFixed x 2) = round2 x.
Proof.
  destruct x as [q| | |]; try reflexivity.
  unfold toFixed, round2.
  set (n := roundScaled q 2).
  change (10 ^ N.of_nat 2)%N with 100%N.
  assert (L : (n mod 100 < 100)%N) by (apply N.mod_lt; discriminate).
  pose proof (strUnsignedDecimalLiteral_fixed2 (n / 100) L) as U.
  assert (E : (Z.of_N (n / 100) * 100 + Z.of_N (n mod 100))%Z = Z.of_N n).
  { rewrite (N.div_mod' n 100) at 3. lia. }
  rewrite E in U.
  set (body := NilEmpty.string_of_uint (N.to_uint (n / 100)) ++ "." ++
               NilEmpty.string_of_uint (padLeft 2 (N.to_uint (n mod 100)))) in *.
  assert (W : noWhiteSpace body = true).
  { unfold body. rewrite !noWhiteSpace_app, !noWhiteSpace_string_of_uint.
    reflexivity. }
  assert (SD : strDecimalLiteral body
               = Some (round (Q2Qc (Z.of_N n # 100)), ""))
    by (unfold body; rewrite strDecimalLiteral_digits
          by apply to_uint_nonnil; exact U).
  unfold parseFloat. destruct (sgn q).
  - cbn [append]. rewrite trimStart_noWhiteSpace by exact W. now rewrite SD.
  - change ("-" ++ body) with (String "-" body).
    change (trimStart (String "-" body)) with (String "-" body).
    change (strDecimalLiteral (String "-" body))
      with (match strUnsignedDecimalLiteral body with
            | Some (v, rest) => Some (neg v, rest)
            | None => None
            end).
    now rewrite U.
  - cbn [append]. rewrite trimStart_noWhiteSpace by exact W. now rewrite SD.
Qed.

(** The total of a shipping line, read back by [toNum]. *)
Lemma toNum_toFixed2 x :
  toNum (VString (toFixed x 2)) zero
  = if isFinite (round2 x) then round2 x else zero.
Proof.
  unfold toNum. cbn [nullish ToString]. now rewrite parseFloat_toFixed2.
Qed.

Lemma calculateShippingLines_cons method methods item items :
  calculateShippingLines (method :: methods) (item :: items)
  = ((if ShippingMethod.enabled method then
        calculateShippingLines [method] (item :: items)
      else [])
     ++ calculateShippingLines methods (item :: items))%list.
Proof.
  unfold calculateShippingLines. cbn [flat_map].
  destruct methods as [|m' ms]; cbn [flat_map];
    destruct (ShippingMethod.enabled method); cbn [app];
    rewrite ?app_nil_r; reflexivity.
Qed.

Lemma fold_lines methods item items acc :
  fold_left
    (fun total line => total + toNum (VString (ShippingLine.total line)) zero)
    (calculateShippingLines methods (item :: items)) acc
  = fold_left add
      (map (lineAmount (item :: items)) (filter ShippingMethod.enabled methods))
      acc.
Proof.
  revert acc. induction methods as [|m methods IH]; intros acc; [reflexivity|].
  rewrite calculateShippingLines_cons, fold_left_app, IH.
  cbn [filter]. destruct (ShippingMethod.enabled m) eqn:En; [|reflexivity].
  cbn [map fold_left]. f_equal.
  unfold calculateShippingLines. cbn [flat_map]. rewrite En.
  cbn [app fold_left ShippingLine.total].
  now rewrite toNum_toFixed2.
Qed.

(** X1.  The shipping total of the lines computed for a list of methods
    and a cart that is not empty is the sum, over the enabled methods in
    their order, of the cost of the method rounded to two decimals, an
    amount that is not finite counting for nothing; for an empty cart it
    is 0.  The rounding is the one of printing with two decimals and
    reading back, whatever the arithmetic; in binary floating point the
    cost [1.005] is the number just below it, and its line is worth 1. *)
Theorem shippingTotalOf_calculateShippingLines
    (methods : list ShippingMethod.t) (items : list CartItem.t) :
  shippingTotalOf (calculateShippingLines methods items)
  = match items with
    | [] => zero
    | _ => addUp (map (lineAmount items) (filter ShippingMethod.enabled methods))
    end
  /\ (forall x, round2 x = parseFloat (toFixed x 2))
  /\ (let method :=
        Sample.shippingMethod 1 "flat_rate" "1.005" true in
      let items := Sample.cart1000 (A := Binary64) in
      map ShippingLine.total
        (calculateShippingLines (A := Binary64) (H := ArithmeticHost.host)
           [method] items)
      = ["1.00"]
      /\ lineAmount (A := Binary64) (H := ArithmeticHost.host) items method
         = one
      /\ shippingTotalOf (A := Binary64) (H := ArithmeticHost.host)
           (calculateShippingLines (A := Binary64) (H := ArithmeticHost.host)
              [method] items)
         = one).
Proof.
  split; [|split].
  - destruct items as [|item items].
    + now destruct methods.
    + apply fold_lines.
  - intros x. now rewrite parseFloat_toFixed2.
  - cbv zeta. split; [vm_compute; reflexivity|]. split; js_eq.
Qed.

(** X2.  There is one shipping line for each enabled method, in the order
    of the methods, and none for an empty cart; a line carries the
    identifier of its method and a tax of ["0.00"], whatever the tax
    status of the method. *)
Theorem calculateShippingLines_per_enabled_method
    (methods : list ShippingMethod.t) (items : list CartItem.t) :
  map ShippingLine.id (calculateShippingLines methods items)
  = match items with
    | [] => []
    | _ => map ShippingMethod.id (filter ShippingMethod.enabled methods)
    end
  /\ Forall (fun line => ShippingLine.total_tax line = "0.00"
                         /\ ShippingLine.taxes line = [])
       (calculateShippingLines methods items).
Proof.
  destruct items as [|item items].
  - destruct methods; split; constructor.
  - induction methods as [|m methods [IH1 IH2]]; [split; constructor|].
    rewrite calculateShippingLines_cons. cbn [filter].
    destruct (ShippingMethod.enabled m) eqn:En.
    + unfold calculateShippingLines at 1 3. cbn [flat_map]. rewrite En.
      cbn [app map ShippingLine.id]. split.
      * now rewrite IH1.
      * constructor; [split; reflexivity|exact IH2].
    + cbn [app]. now split.
Qed.

End ShippingLines.

(* ================================================================== *)
(** * The default shipping method *)

Section DefaultMethod.
Context {arith : JS.Arithmetic} `{Host}.
Import JS State.
Local Open Scope js_scope.

Lemma find_enabled_None methods :
  find ShippingMethod.enabled methods = None
  <-> forall m, In m methods -> ShippingMethod.enabled m = false.
Proof.
  split.
  - intros F m Hin. exact (find_none _ _ F m Hin).
  - intros N. induction methods as [|m methods IH]; [reflexivity|].
    cbn [find]. rewrite (N m) by now left.
    apply IH. intros m' Hin. apply N. now right.
Qed.

(** X3.  The default shipping method is an enabled method of the list;
    there is none exactly when no method of the list is enabled; it is a
    flat-rate method whenever the list has an enabled flat-rate method;
    and the cart plays no part in the choice. *)
Theorem selectDefaultFlatRateMethod_enabled
    (methods : list ShippingMethod.t) (items : list CartItem.t) :
  (selectDefaultFlatRateMethod methods items = None
   <-> forall m, In m methods -> ShippingMethod.enabled m = false)
  /\ (forall m, selectDefaultFlatRateMethod methods items = Some m ->
        In m methods /\ ShippingMethod.enabled m = true)
  /\ (forall m f,
        selectDefaultFlatRateMethod methods items = Some m ->
        In f methods -> ShippingMethod.enabled f = true ->
        ShippingMethod.method_id f = "flat_rate" ->
        ShippingMethod.method_id m = "flat_rate")
  /\ (forall items',
        selectDefaultFlatRateMethod methods items'
        = selectDefaultFlatRateMethod methods items).
Proof.
  set (flat := fun method =>
                 String.eqb (ShippingMethod.method_id method) "flat_rate"
                 && ShippingMethod.enabled method).
  assert (D : selectDefaultFlatRateMethod methods items
              = match find flat methods with
                | Some m => Some m
                | None => find ShippingMethod.enabled methods
                end).
  { unfold selectDefaultFlatRateMethod. fold flat. now destruct methods. }
  split; [|split; [|split]].
  - rewrite D. destruct (find flat methods) as [m|] eqn:F.
    + split; [discriminate|]. intros N. apply find_some in F.
      destruct F as [Hin Fl]. unfold flat in Fl.
      apply andb_true_iff in Fl. destruct Fl as [_ En].
      rewrite (N m Hin) in En. discriminate.
    + apply find_enabled_None.
  - intros m. rewrite D. destruct (find flat methods) as [m'|] eqn:F.
    + intros E. inversion E; subst m'. apply find_some in F.
      destruct F as [Hin Fl]. unfold flat in Fl.
      apply andb_true_iff in Fl. tauto.
    + intros E. apply find_some in E. exact E.
  - intros m f. rewrite D. destruct (find flat methods) as [m'|] eqn:F.
    + intros E _ _ _. inversion E; subst m'. apply find_some in F.
      destruct F as [_ Fl]. unfold flat in Fl.
      apply andb_true_iff in Fl. destruct Fl as [Fl _].
      now apply String.eqb_eq.
    + intros _ Hin En Id. pose proof (find_none _ _ F f Hin) as N.
      unfold flat in N. rewrite En, Id in N. discriminate.
  - intros items'. reflexivity.
Qed.

Lemma loadShippingMethods_enabled response m :
  In m (loadShippingMethods response) -> ShippingMethod.enabled m = true.
Proof.
  destruct response as [|[|] methods]; simpl; try tauto.
  intros Hin. apply filter_In in Hin. tauto.
Qed.

(** X4.  After a run of [loadCart] that has loaded at least one shipping
    method and at least one item, a shipping method of the loaded list is
    selected and there is exactly one shipping line, the one of that
    method.  When the tax calculator returns, the cart is the loaded one
    and the tax calculation is the one of the loaded cart, that line and
    the loaded rates; when it throws, the cart is empty, the tax
    calculation is the one of the state before, and the error text tells
    that the cart could not be loaded. *)
Theorem loadCart_selects_one_method
    uid taxes methodsResponse gatewaysResponse customer getProductDetail
    fetched st :
  uid <> 0%Z ->
  fetchItems getProductDetail (Customer.cart customer) [] = Returns fetched ->
  fetched <> [] ->
  loadShippingMethods methodsResponse <> [] ->
  let st' :=
    loadCart (Returns (Some uid)) taxes methodsResponse gatewaysResponse
      (Returns customer) getProductDetail st in
  exists m,
    selectedShippingMethod st' = Some m
    /\ In m (loadShippingMethods methodsResponse)
    /\ shippingLines st' = calculateShippingLines [m] fetched
    /\ map ShippingLine.id (shippingLines st') = [ShippingMethod.id m]
    /\ match
         updateTaxCalculation fetched (shippingLines st') (loadTaxRates taxes)
       with
       | Returns stored =>
           taxCalculation st' = stored /\ cartItems st' = fetched
       | Throws =>
           taxCalculation st' = taxCalculation st
           /\ cartItems st' = []
           /\ errorText st' = "Failed to load cart. Please try again."
       end.
Proof.
  intros U Fe NF NM st'.
  set (methods := loadShippingMethods methodsResponse) in *.
  destruct (selectDefaultFlatRateMethod methods fetched) as [m|] eqn:S.
  - assert (I : In m methods /\ ShippingMethod.enabled m = true).
    { unfold selectDefaultFlatRateMethod in S.
      destruct methods as [|m0 ms] eqn:M; [discriminate|]. rewrite <- M in *.
      destruct (find _ methods) as [f|] eqn:F.
      - inversion S; subst f. apply find_some in F. destruct F as [Hin Fl].
        apply andb_true_iff in Fl. tauto.
      - apply find_some in S. exact S. }
    destruct I as [Hin En].
    exists m. unfold st', loadCart, loadCartFailed. fold methods. rewrite Fe.
    assert (G : ((0 <? List.length methods) && (0 <? List.length fetched))%nat
                = true).
    { destruct methods; [congruence|]. destruct fetched; [congruence|].
      reflexivity. }
    assert (Id : map ShippingLine.id (calculateShippingLines [m] fetched)
                 = [ShippingMethod.id m]).
    { destruct fetched as [|i fetched']; [congruence|].
      unfold calculateShippingLines. cbn [flat_map]. now rewrite En. }
    destruct uid as [|p|p]; [congruence| |]; rewrite G, S;
      (destruct (updateTaxCalculation fetched
                   (calculateShippingLines [m] fetched) (loadTaxRates taxes))
         as [|stored] eqn:Tx;
       cbn [setLoading setSelectedPaymentMethod setTaxCalculation
              setShippingLines setSelectedShippingMethod setCartItems
              setAppliedCoupons setPaymentGateways setShippingMethods
              setTaxRates setUserId setErrorText selectedShippingMethod
              shippingLines taxCalculation cartItems errorText];
       rewrite ?Tx; repeat split; trivial).
  - exfalso. unfold selectDefaultFlatRateMethod in S.
    destruct methods as [|m0 ms] eqn:M; [congruence|]. rewrite <- M in *.
    destruct (find _ methods); [discriminate|].
    assert (Hin : In m0 methods) by (rewrite M; now left).
    pose proof (find_none _ _ S m0 Hin) as N.
    rewrite (loadShippingMethods_enabled methodsResponse m0 Hin) in N.
    discriminate.
Qed.

End DefaultMethod.

Section DefaultMethodSample.
#[local] Existing Instance JS.Binary64.
#[local] Existing Instance ArithmeticHost.host.
Import JS State.

(** The first load of the sample: the flat rate of 50 and its line. *)
Lemma loadCart_selects_one_method_witness :
  exists m,
    selectedShippingMethod
      (loadCart (Returns (Some 42%Z)) (FetchResponse true Sample.gst18)
         (FetchResponse true Sample.flatRate50)
         (FetchResponse true Sample.gateways) (Returns Sample.customer)
         Sample.getProductDetail initial) = Some m
    /\ ShippingMethod.id m = 1%Z.
Proof.
  destruct (@loadCart_selects_one_method _ _ 42%Z (FetchResponse true Sample.gst18)
              (FetchResponse true Sample.flatRate50)
              (FetchResponse true Sample.gateways) Sample.customer
              Sample.getProductDetail
              [itemOfProduct (Sample.product 1 "1000") (Some one)] initial)
    as (m & S & Hin & _).
  - discriminate.
  - reflexivity.
  - discriminate.
  - discriminate.
  - exists m. split; [exact S|].
    destruct Hin as [<-|[]]. reflexivity.
Defined.

End DefaultMethodSample.

(* ================================================================== *)
(** * Changes of the cart *)

Section CartChanges.
Context {arith : JS.Arithmetic} `{Host}.
Import JS State.
Local Open Scope js_scope.





Lemma cartItems_updateQuantity id qty remote st :
  (qty <? one) = false ->
  cartItems (updateQuantity id qty remote st)
  = map (fun it =>
           if String.eqb (CartItem.id it) id then
             {| CartItem.id := CartItem.id it;
                CartItem.name := CartItem.name it;
                CartItem.price := CartItem.price it;
                CartItem.originalPrice := CartItem.originalPrice it;
                CartItem.size := CartItem.size it;
                CartItem.color := CartItem.color it;
                CartItem.image := CartItem.image it;
                CartItem.quantity := qty;
                CartItem.tax_class := CartItem.tax_class it;
                CartItem.tax_status := CartItem.tax_status it;
                CartItem.payment_methods := CartItem.payment_methods it |}
           else it)
      (cartItems st).
Proof.
  intros L. unfold updateQuantity. rewrite L.
  now rewrite cartItems_updateCartMeta.
Qed.

(** X6.  An update to a quantity that is not below 1 keeps the items of
    the cart in place, with their identifiers, prices, tax classes and
    payment methods; every item with the given identifier gets the
    requested quantity, and the other items keep theirs. *)
Theorem updateQuantity_in_place
    (id : string) (qty : JS.number) (remote : Outcome unit) (st : State.t) :
  (qty <? one) = false ->
  let st' := updateQuantity id qty remote st in
  map CartItem.id (cartItems st') = map CartItem.id (cartItems st)
  /\ map CartItem.price (cartItems st') = map CartItem.price (cartItems st)
  /\ map taxClassOf (cartItems st') = map taxClassOf (cartItems st)
  /\ map CartItem.payment_methods (cartItems st')
     = map CartItem.payment_methods (cartItems st)
  /\ map CartItem.quantity (cartItems st')
     = map (fun it => if String.eqb (CartItem.id it) id then qty
                      else CartItem.quantity it)
         (cartItems st).
Proof.
  intros L st'. unfold st'. rewrite cartItems_updateQuantity by exact L.
  rewrite !map_map.
  repeat split; apply map_ext; intros it;
    destruct (String.eqb (CartItem.id it) id); reflexivity.
Qed.


End CartChanges.

Section CartChangesSample.
#[local] Existing Instance JS.Binary64.
#[local] Existing Instance ArithmeticHost.host.
Import JS State.

(** The quantity of the item of the sample cart set to 3. *)
Lemma updateQuantity_in_place_witness :
  let st := State.setCartItems Sample.cart1000 State.initial in
  map CartItem.quantity
    (cartItems (updateQuantity "1" (ofZ 3) (Returns tt) st))
  = [ofZ 3].
Proof.
  intros st.
  destruct (@updateQuantity_in_place _ _ "1" (ofZ 3) (Returns tt) st
              eq_refl) as (_ & _ & _ & _ & Q).
  rewrite Q. reflexivity.
Defined.

End CartChangesSample.

(* ================================================================== *)
(** * The effects after a change *)

Section Effects.
Context {arith : JS.Arithmetic} `{Host}.
Import JS State.
Local Open Scope js_scope.

(** X8.  Which changes leave the tax calculation of the cart, the shipping
    lines and the tax rates of the state.  The choice of a shipping method
    does, and so does the tax effect when there is a cart item, a tax rate
    or a shipping line, unless the tax calculator throws.  [updateCartMeta]
    does when there are shipping methods; without shipping methods it
    computes the tax calculation of the new cart and of no shipping line,
    and leaves the shipping lines of the state where they are. *)
Theorem tax_calculation_after_changes (st : State.t) :
  (forall method,
     let st' := updateShippingMethod method st in
     cartItems st' = cartItems st /\ taxRates st' = taxRates st
     /\ shippingLines st' = calculateShippingLines [method] (cartItems st)
     /\ match
          updateTaxCalculation (cartItems st') (shippingLines st')
            (taxRates st')
        with
        | Returns stored => taxCalculation st' = stored
        | Throws => taxCalculation st' = taxCalculation st
        end)
  /\ (forall st',
        taxEffect st = Returns st' ->
        cartItems st <> [] \/ taxRates st <> [] \/ shippingLines st <> [] ->
        updateTaxCalculation (cartItems st') (shippingLines st') (taxRates st')
        = Returns (taxCalculation st'))
  /\ (forall items uid,
        userId st = Some uid -> uid <> 0%Z ->
        let st' := updateCartMeta st items (Returns tt) (setCartItems items st) in
        cartItems st' = items /\ taxRates st' = taxRates st
        /\ match shippingMethods st with
           | [] =>
               shippingLines st' = shippingLines st
               /\ match updateTaxCalculation items [] (taxRates st) with
                  | Returns stored => taxCalculation st' = stored
                  | Throws => taxCalculation st' = taxCalculation st
                  end
           | _ =>
               match
                 updateTaxCalculation items (shippingLines st') (taxRates st)
               with
               | Returns stored => taxCalculation st' = stored
               | Throws => taxCalculation st' = taxCalculation st
               end
           end).
Proof.
  split; [|split].
  - intros method st'. unfold st', updateShippingMethod.
    destruct (updateTaxCalculation (cartItems st)
                (calculateShippingLines [method] (cartItems st)) (taxRates st))
      as [|stored] eqn:Tx;
      cbn [cartItems taxRates shippingLines taxCalculation setTaxCalculation
             setShippingLines setSelectedShippingMethod];
      rewrite Tx; repeat split.
  - intros st' E G. pose proof (taxEffect_spec st) as S.
    destruct (updateTaxCalculation (cartItems st) (shippingLines st)
                (taxRates st)) as [|stored] eqn:Tx;
      destruct (cartItems st) as [|it items] eqn:C,
               (taxRates st) as [|r rs] eqn:R,
               (shippingLines st) as [|l ls] eqn:L;
      try (destruct G as [G|[G|G]]; congruence);
      try (rewrite S in E; discriminate);
      rewrite S in E; injection E as <-;
      cbn [cartItems taxRates shippingLines taxCalculation setTaxCalculation];
      rewrite C, R, L; exact Tx.
  - intros items uid Eu U st'. unfold st', updateCartMeta. rewrite Eu.
    destruct uid as [|p|p]; [congruence| |];
      (destruct (shippingMethods st) as [|m ms];
       cbn [List.length Nat.ltb Nat.leb];
       (destruct (updateTaxCalculation items _ (taxRates st))
          as [|stored] eqn:Tx;
        cbn [cartItems taxRates shippingLines taxCalculation
               setSelectedPaymentMethod setTaxCalculation setShippingLines
               setSelectedShippingMethod setCartItems];
        rewrite ?Tx; repeat split)).
Qed.

(** X9.  The effects settle at once: run on the state that they leave,
    they return it as it is.  They throw, and leave no state, exactly
    when the tax calculator throws: there is a tax rate, and an item of
    the cart has a tax class that names an inherited property. *)
Theorem effects_idempotent (st : State.t) :
  match effects st with
  | Returns st' => effects st' = Returns st'
  | Throws => taxRates st <> [] /\ inheritedClass (cartItems st) = true
  end.
Proof.
  destruct (effects st) as [|st'] eqn:E.
  - apply taxEffect_Throws. unfold effects in E.
    destruct (taxEffect st); [reflexivity|discriminate].
  - revert E.
    destruct st as [items ld uid err coupons methods sel lines rates tc gws pm].
    unfold effects, taxEffect, paymentEffect.
    cbn [cartItems taxRates shippingLines paymentGateways setTaxCalculation
           setSelectedPaymentMethod].
    destruct ((0 <? List.length items) || (0 <? List.length rates)
              || (0 <? List.length lines))%nat eqn:G1;
      [destruct (updateTaxCalculation items lines rates) as [|stored] eqn:U;
       [discriminate|]|];
      cbn [cartItems taxRates shippingLines paymentGateways setTaxCalculation
             setSelectedPaymentMethod];
      destruct ((0 <? List.length items) && (0 <? List.length gws))%nat eqn:G2;
      intros [= <-];
      cbn [cartItems taxRates shippingLines paymentGateways setTaxCalculation
             setSelectedPaymentMethod];
      rewrite ?G1, ?U;
      cbn [cartItems taxRates shippingLines paymentGateways setTaxCalculation
             setSelectedPaymentMethod];
      rewrite ?G2; reflexivity.
Qed.

End Effects.

Section EffectsSample.
#[local] Existing Instance JS.Binary64.
#[local] Existing Instance ArithmeticHost.host.
Import JS State.
Local Open Scope js_scope.

(** The sample after the second load, of which the request for the
    shipping methods has failed, and a press on the button that adds one
    piece.  The shipping line of 50 stays and the tax calculation is the
    one of no shipping line: the total holds a shipping total of 50, an
    item tax of 360 and no shipping tax, where the tax calculator gives a
    shipping tax of 9 for the cart and the shipping line of the state. *)
Example tax_without_the_shipping_line :
  exists again current,
    Sample.reload = Returns again
    /\ shippingMethods again = []
    /\ let st' := updateQuantity "1" (ofZ 2) (Returns tt) again in
       shippingTotal st' = ofZ 50
       /\ itemTaxTotal st' = ofZ 360
       /\ shippingTaxTotal st' = zero
       /\ total st' = ofZ 2410
       /\ updateTaxCalculation (cartItems st') (shippingLines st') (taxRates st')
          = Returns (Some current)
       /\ TaxCalculation.shipping_tax_total current = ofZ 9.
Proof.
  do 2 eexists.
  split; [vm_compute; reflexivity|].
  split; [reflexivity|]. cbv zeta.
  split; [js_eq|]. split; [js_eq|]. split; [js_eq|]. split; [js_eq|].
  split; [vm_compute; reflexivity|js_eq].
Qed.

End EffectsSample.

(* ================================================================== *)
(** * What [loadCart] leaves *)

Section LoadCart.
Context {arith : JS.Arithmetic} `{Host}.
Import JS State.
Local Open Scope js_scope.

Lemma fetchItems_acc getProductDetail cartMeta acc :
  (forall e, In e cartMeta -> getProductDetail (CartEntry.id e) <> Throws) ->
  fetchItems getProductDetail cartMeta acc
  = Returns (acc ++ flat_map (itemsOfEntry getProductDetail) cartMeta)%list.
Proof.
  revert acc. induction cartMeta as [|e cartMeta IH]; intros acc A.
  - cbn. now rewrite app_nil_r.
  - cbn [fetchItems flat_map]. unfold itemsOfEntry at 1.
    pose proof (A e (or_introl eq_refl)) as Ne.
    destruct (getProductDetail (CartEntry.id e)) as [|[p|]]; [congruence| |].
    + rewrite IH by (intros e' He'; apply A; now right).
      now rewrite <- app_assoc.
    + rewrite IH by (intros e' He'; apply A; now right). reflexivity.
Qed.

Lemma fetchItems_throws getProductDetail cartMeta acc :
  (exists e, In e cartMeta /\ getProductDetail (CartEntry.id e) = Throws) ->
  fetchItems getProductDetail cartMeta acc = Throws.
Proof.
  revert acc. induction cartMeta as [|e cartMeta IH]; intros acc [e0 [Hin T]].
  - destruct Hin.
  - cbn [fetchItems]. destruct Hin as [<-|Hin].
    + now rewrite T.
    + destruct (getProductDetail (CartEntry.id e)) as [|[p|]];
        [reflexivity| |]; apply IH; eauto.
Qed.

(** X10.  The loop that builds the cart keeps the order of the entries of
    the cart meta value, builds one item for each entry of which the
    product has data and skips the others; a single lookup that throws
    makes the whole loop throw, whatever had been built before. *)
Theorem fetchItems_in_order
    (getProductDetail : Z -> Outcome (option ProductData.t))
    (cartMeta : list CartEntry.t) :
  ((forall e, In e cartMeta -> getProductDetail (CartEntry.id e) <> Throws) ->
   fetchItems getProductDetail cartMeta []
   = Returns (flat_map (itemsOfEntry getProductDetail) cartMeta))
  /\ ((exists e, In e cartMeta /\ getProductDetail (CartEntry.id e) = Throws) ->
      fetchItems getProductDetail cartMeta [] = Throws)
  /\ (forall fetched,
        fetchItems getProductDetail cartMeta [] = Returns fetched ->
        (List.length fetched <= List.length cartMeta)%nat).
Proof.
  split; [|split].
  - intros A. now rewrite fetchItems_acc.
  - apply fetchItems_throws.
  - intros fetched E.
    assert (D : (forall e, In e cartMeta ->
                           getProductDetail (CartEntry.id e) <> Throws)
                \/ exists e, In e cartMeta
                             /\ getProductDetail (CartEntry.id e) = Throws).
    { clear. induction cartMeta as [|e l [IH|[e0 [Hin T]]]].
      - left. intros e [].
      - destruct (getProductDetail (CartEntry.id e)) eqn:G.
        + right. exists e. split; [now left|assumption].
        + left. intros e' [<-|Hin]; [congruence|now apply IH].
      - right. exists e0. split; [now right|assumption]. }
    destruct D as [A|T].
    + rewrite fetchItems_acc in E by assumption. inversion E; subst fetched.
      cbn [app]. clear. induction cartMeta as [|e l IH]; [constructor|].
      cbn [flat_map]. rewrite length_app. unfold itemsOfEntry at 1.
      destruct (getProductDetail (CartEntry.id e)) as [|[p|]]; simpl; lia.
    + rewrite fetchItems_throws in E by assumption. discriminate.
Qed.

(** What [itemOfProduct] gives whatever the product and the quantity. *)
Lemma itemOfProduct_sound productData quantity :
  let it := itemOfProduct productData quantity in
  isFinite (CartItem.price it) = true
  /\ isFinite (CartItem.originalPrice it) = true
  /\ truthy (CartItem.quantity it) = true
  /\ supportsCOD it = true.
Proof.
  cbv zeta. unfold itemOfProduct.
  cbn [CartItem.price CartItem.originalPrice CartItem.quantity].
  repeat split; try apply toNum_finite.
  destruct quantity as [q|]; [|reflexivity].
  unfold or. destruct (truthy q) eqn:T; [exact T|reflexivity].
Qed.

Lemma fetchItems_Forall (P : CartItem.t -> Prop) getProductDetail cartMeta acc fetched :
  (forall p q, P (itemOfProduct p q)) ->
  Forall P acc ->
  fetchItems getProductDetail cartMeta acc = Returns fetched ->
  Forall P fetched.
Proof.
  intros A. revert acc. induction cartMeta as [|e l IH]; intros acc Fa E.
  - cbn in E. now inversion E; subst.
  - cbn [fetchItems] in E.
    destruct (getProductDetail (CartEntry.id e)) as [|[p|]]; [discriminate| |].
    + apply (IH _ (proj2 (Forall_app _ _ _)
                     (conj Fa (Forall_cons _ (A p _) (Forall_nil _)))) E).
    + apply (IH _ Fa E).
Qed.

(** X11.  Every item of a cart built by [loadCart] has a finite price and
    regular price, a quantity that is neither 0 nor [NaN], and supports
    cash on delivery.  So for such a cart the enabled cash-on-delivery
    gateway is selected whenever there is one, and the online gateway only
    when there is none. *)
Theorem loaded_cart_pays_on_delivery
    (getProductDetail : Z -> Outcome (option ProductData.t))
    (cartMeta : list CartEntry.t) (fetched : list CartItem.t) :
  fetchItems getProductDetail cartMeta [] = Returns fetched ->
  Forall (fun it =>
            isFinite (CartItem.price it) = true
            /\ isFinite (CartItem.originalPrice it) = true
            /\ truthy (CartItem.quantity it) = true
            /\ supportsCOD it = true) fetched
  /\ forall paymentGateways,
       determinePaymentMethod fetched paymentGateways
       = match find (fun g => String.eqb (PaymentGateway.id g) "cod")
                 (filter PaymentGateway.enabled paymentGateways) with
         | Some cod => Some (codMethod cod)
         | None =>
             match find (fun g => String.eqb (PaymentGateway.id g) "razorpay")
                     (filter PaymentGateway.enabled paymentGateways) with
             | Some rz => Some (onlineMethod rz)
             | None => None
             end
         end.
Proof.
  intros E.
  assert (F : Forall (fun it =>
                        isFinite (CartItem.price it) = true
                        /\ isFinite (CartItem.originalPrice it) = true
                        /\ truthy (CartItem.quantity it) = true
                        /\ supportsCOD it = true) fetched).
  { eapply fetchItems_Forall; [| |exact E].
    - intros p q. apply itemOfProduct_sound.
    - constructor. }
  split; [exact F|]. intros gws. unfold determinePaymentMethod.
  assert (A : forallb supportsCOD fetched = true).
  { apply forallb_forall. rewrite Forall_forall in F.
    intros it Hin. now apply F. }
  rewrite A.
  destruct (find _ (filter PaymentGateway.enabled gws)); [reflexivity|].
  destruct (find _ (filter PaymentGateway.enabled gws)); reflexivity.
Qed.


End LoadCart.

Section LoadCartSample.
#[local] Existing Instance JS.Binary64.
#[local] Existing Instance ArithmeticHost.host.
Import JS State.

(** The cart of the sample customer, and the gateway chosen for it. *)
Lemma loaded_cart_pays_on_delivery_witness :
  determinePaymentMethod
    [itemOfProduct (Sample.product 1 "1000") (Some one)]
    [Sample.gateway "razorpay" true; Sample.gateway "cod" true]
  = Some (codMethod (Sample.gateway "cod" true)).
Proof.
  destruct (@loaded_cart_pays_on_delivery _ _ Sample.getProductDetail
              (Customer.cart Sample.customer)
              [itemOfProduct (Sample.product 1 "1000") (Some one)] eq_refl)
    as [_ P].
  rewrite P. reflexivity.
Defined.

End LoadCartSample.

(* ================================================================== *)
(** * More on the tax calculator *)

Section TaxesMore.
Context {arith : JS.Arithmetic} `{Host}.
Import JS Obj ObjFacts.
Local Open Scope js_scope.

Lemma taxClassOf_not_empty it : taxClassOf it <> "".
Proof.
  unfold taxClassOf. destruct (CartItem.tax_class it) as [c|]; [|discriminate].
  destruct (String.eqb_spec c ""); [discriminate|assumption].
Qed.

Lemma rateApplies_classOfRate c r :
  c <> "" -> rateApplies c r = String.eqb (classOfRate r) c.
Proof.
  intros N. unfold rateApplies, classOfRate.
  destruct (String.eqb_spec (TaxRate.class r) "") as [E|E].
  - rewrite E. destruct (String.eqb_spec "" c) as [E'|_]; [congruence|].
    cbn [orb]. rewrite andb_true_r. apply String.eqb_sym.
  - rewrite andb_false_r, orb_false_r. reflexivity.
Qed.

Lemma NoDup_filter_eqb_length k (ks : list string) :
  NoDup ks -> (List.length (filter (String.eqb k) ks) <= 1)%nat.
Proof.
  induction 1 as [|c ks Nin ND IH]; cbn [filter]; [simpl; lia|].
  destruct (String.eqb_spec k c) as [->|N]; [|exact IH].
  assert (E : filter (String.eqb c) ks = []).
  { destruct (filter (String.eqb c) ks) as [|x l] eqn:F; [reflexivity|].
    assert (Hx : In x (filter (String.eqb c) ks)) by (rewrite F; now left).
    apply filter_In in Hx. destruct Hx as [Hx Ex].
    apply String.eqb_eq in Ex. subst x. contradiction. }
  rewrite E. simpl. lia.
Qed.

Lemma length_by_class_cons (ks : list string) r (rates : list TaxRate.t) :
  List.length
    (flat_map (fun c => filter (fun r => String.eqb (classOfRate r) c) (r :: rates))
       ks)
  = (List.length (filter (String.eqb (classOfRate r)) ks)
     + List.length
         (flat_map
            (fun c => filter (fun r => String.eqb (classOfRate r) c) rates) ks))%nat.
Proof.
  induction ks as [|c ks IH]; cbn [flat_map]; [reflexivity|].
  rewrite !length_app, IH. cbn [filter].
  destruct (String.eqb (classOfRate r) c); cbn [List.length]; lia.
Qed.

(** Over classes without repetition, a rate is counted at most once. *)
Lemma length_by_class (ks : list string) (rates : list TaxRate.t) :
  NoDup ks ->
  (List.length
     (flat_map (fun c => filter (fun r => String.eqb (classOfRate r) c) rates) ks)
   <= List.length rates)%nat.
Proof.
  intros ND. induction rates as [|r rates IH].
  - induction ks as [|c ks IHk]; [simpl; lia|].
    inversion ND; subst. cbn [flat_map filter app]. now apply IHk.
  - pose proof (length_by_class_cons ks r rates) as L.
    pose proof (NoDup_filter_eqb_length (classOfRate r) ND) as B.
    cbn [List.length]. lia.
Qed.

Lemma classes_not_empty items c : In c (classes items) -> c <> "".
Proof.
  destruct (classes_spec items) as (_ & K & E).
  destruct (inheritedClass items).
  - now rewrite E.
  - intros Hc. apply (K eq_refl) in Hc. destruct Hc as [it [_ <-]].
    apply taxClassOf_not_empty.
Qed.

Lemma taxPairs_classOfRate items taxRates c r :
  In (c, r) (taxPairs items taxRates) -> c = classOfRate r.
Proof.
  intros Hin. unfold taxPairs in Hin. apply in_flat_map in Hin.
  destruct Hin as [c' [Hc Hin]]. apply in_map_iff in Hin.
  destruct Hin as [r' [E Hr]]. inversion E; subst c' r'.
  apply filter_In in Hr. destruct Hr as [_ R].
  rewrite rateApplies_classOfRate in R by now apply classes_not_empty in Hc.
  apply String.eqb_eq in R. now symmetry.
Qed.

Lemma length_taxPairs items taxRates :
  (List.length (taxPairs items taxRates) <= List.length taxRates)%nat.
Proof.
  destruct (classes_spec items) as (ND & _).
  pose proof (classes_not_empty items) as NE.
  unfold taxPairs.
  etransitivity; [|apply (length_by_class taxRates ND)].
  apply Nat.eq_le_incl. clear ND.
  induction (classes items) as [|c ks IH]; cbn [flat_map]; [reflexivity|].
  rewrite !length_app, length_map, IH
    by (intros c' Hc'; apply NE; now right).
  f_equal. f_equal. apply filter_ext. intros r.
  apply rateApplies_classOfRate, NE. now left.
Qed.

(** X13.  Each tax rate gives at most one tax line, so that a result of
    the tax calculator has at most as many tax lines as there are rates: a
    rate applies to one class of the cart only, and the classes of the
    cart object are distinct.  The tax calculator gives no result on a
    cart with an item of an inherited class. *)
Theorem calculateTaxes_at_most_one_line_per_rate
    (items : list CartItem.t) (subtotal shippingTotal : JS.number)
    (taxRates : list TaxRate.t) :
  match calculateTaxes items subtotal shippingTotal taxRates with
  | Returns taxes =>
      (List.length (TaxCalculation.tax_lines taxes) <= List.length taxRates)%nat
  | Throws => inheritedClass items = true
  end
  /\ (forall c r,
        In (c, r) (taxPairs items taxRates) -> c = classOfRate r).
Proof.
  split.
  - rewrite calculateTaxes_closed.
    destruct (inheritedClass items); [reflexivity|].
    unfold taxesOf. cbn [TaxCalculation.tax_lines]. rewrite length_map.
    apply length_taxPairs.
  - apply taxPairs_classOfRate.
Qed.




End TaxesMore.

(* ================================================================== *)
(** * The sale discount *)

Section SaleDiscount.
#[local] Existing Instance JS.Exact.
Context `{Host}.
Import JS JSFacts State.
Local Open Scope js_scope.







End SaleDiscount.

Section SaleDiscountSample.
#[local] Existing Instance JS.Exact.
#[local] Existing Instance ArithmeticHost.host.
Import JS State.


End SaleDiscountSample.

(* ================================================================== *)
(** * What [updateCartMeta] recomputes *)

Section CartMeta.
Context {arith : JS.Arithmetic} `{Host}.
Import JS State.
Local Open Scope js_scope.


End CartMeta.

(* ================================================================== *)
(** * The discount of a product card *)

Section CardDiscount.
#[local] Existing Instance JS.Exact.
Import JS JSFacts Cards.
Local Open Scope js_scope.


Example pctDiscount_examples :
  pctDiscount (ofZ 1000) (ofZ 750) = Some (ofZ 25)
  /\ pctDiscount (ofZ 1000) (ofZ 999) = None
  /\ pctDiscount (ofZ 200) (ofZ 1) = Some (ofZ 100)
  /\ pctDiscount (ofZ 750) (ofZ 1000) = None
  /\ pctDiscount (ofZ 1000) zero = None
  /\ pctDiscount PInf (ofZ 10) = None.
Proof. repeat split; vm_compute; try reflexivity; f_equal; js_eq. Qed.




End CardDiscount.

Section CardDiscountSample.
#[local] Existing Instance JS.Exact.
Import JS Cards.


(** In binary floating point the discount from 40 to 17 is a percentage
    just below 57.5, and the card shows 57; the exact percentage is 57.5,
    which rounds to 58. *)
Example pctDiscount_below_half :
  pctDiscount (A := Binary64) (ofZ 40) (ofZ 17) = Some (ofZ 57)
  /\ pctDiscount (A := Exact) (ofZ 40) (ofZ 17) = Some (ofZ 58).
Proof. split; vm_compute; f_equal; js_eq. Qed.

End CardDiscountSample.
